(** * vscode-journal: the configuration facade (src/util/model/conf.ts)

    A shallow embedding of the [Configuration] class: the settings accessors,
    the lazy initialisation of the configuration directory ([getConfigPath],
    [initializeConfigDir], [copyTask], [checkIfAccessible]) and the template
    accessors, together with the properties claimed about them.

    The class talks to four collaborators that are not part of the repository:
    the host's settings store ([vscode.WorkspaceConfiguration]), the host's
    extension registry, Node's [path] module (POSIX flavour) and Node's [fs]
    module.  The settings store is a finite map from keys to JavaScript
    values, [path] is modelled on strings, and [fs] is an interface
    ([FileSystem]) with one concrete instance (a map from paths to nodes). *)

From Stdlib Require Import String Ascii List ZArith Lia.
From stdpp Require Import base option gmap strings list pretty.

Open Scope string_scope.
Open Scope list_scope.
Open Scope stdpp_scope.

(** ** JavaScript values *)

(** The values that flow through the class: what [config.get] may hand back,
    the [TemplateInfo] objects the class builds, and error objects. *)
#[warnings="-register-all"]
Inductive value : Type :=
| VUndefined
| VNull
| VBool (b : bool)
| VNumber (n : Z)
| VString (s : string)
| VArray (items : list value)
| VTemplateInfo (Template After : value)   (* new TemplateInfo(Template, After) *)
| VError (name message : string).          (* an Error object *)

(** The result of running synchronous code: a value, or a thrown exception. *)
Inductive completion (A : Type) : Type :=
| Return (a : A)
| Throw (e : value).
Arguments Return {A} a.
Arguments Throw {A} e.

(** The state a promise settles to. *)
Inductive settled : Type :=
| Fulfilled (v : value)
| Rejected (reason : value).

Module JS.

Definition TypeError (msg : string) : value := VError "TypeError" msg.

(** [ToBoolean]: what [(v) ? _ : _] tests. *)
Definition truthy (v : value) : bool :=
  match v with
  | VUndefined | VNull => false
  | VBool b => b
  | VNumber n => negb (Z.eqb n 0)
  | VString s => negb (String.eqb s "")
  | VArray _ | VTemplateInfo _ _ | VError _ _ => true
  end.

(** [v != null] (loose inequality: false exactly on null and undefined). *)
Definition neq_null (v : value) : bool :=
  match v with
  | VUndefined | VNull => false
  | _ => true
  end.

(** [v.length > 0].  Reading a property of undefined or null throws; a
    boolean, a number or a plain object has no [length], and
    [undefined > 0] is false. *)
Definition length_gt_0 (v : value) : completion bool :=
  match v with
  | VUndefined => Throw (TypeError "Cannot read property 'length' of undefined")
  | VNull => Throw (TypeError "Cannot read property 'length' of null")
  | VString s => Return (negb (String.eqb s ""))
  | VArray items => Return (negb (Nat.eqb (List.length items) 0))
  | VBool _ | VNumber _ | VTemplateInfo _ _ | VError _ _ => Return false
  end.

(** [v.startsWith(".")]. *)
Definition startsWith_dot (v : value) : completion bool :=
  match v with
  | VUndefined => Throw (TypeError "Cannot read property 'startsWith' of undefined")
  | VNull => Throw (TypeError "Cannot read property 'startsWith' of null")
  | VString s => Return (String.prefix "." s)
  | _ => Throw (TypeError "ext.startsWith is not a function")
  end.

(** [s.substring(1, s.length)] on a string. *)
Definition substring_1 (s : string) : string :=
  String.substring 1 (String.length s - 1) s.

(** [String(v)], as used by ["..." + v]. *)
Fixpoint toString (v : value) : string :=
  match v with
  | VUndefined => "undefined"
  | VNull => "null"
  | VBool true => "true"
  | VBool false => "false"
  | VNumber n => pretty n
  | VString s => s
  | VArray items => String.concat "," (List.map toString items)
  | VTemplateInfo _ _ => "[object Object]"
  | VError name message => name +:+ ": " +:+ message
  end.

End JS.

(** ** Node's [path] module, POSIX flavour *)

Module Path.

Definition is_slash (c : ascii) : bool := Ascii.eqb c "/".

(** [s.split("/")]. *)
Fixpoint split (s : string) : list string :=
  match s with
  | EmptyString => [EmptyString]
  | String c rest =>
      if is_slash c then EmptyString :: split rest
      else match split rest with
           | seg :: segs => String c seg :: segs
           | [] => [String c EmptyString]
           end
  end.

Definition isAbsolute (p : string) : bool :=
  match p with
  | String c _ => is_slash c
  | EmptyString => false
  end.

Fixpoint endsWithSlash (p : string) : bool :=
  match p with
  | EmptyString => false
  | String c EmptyString => is_slash c
  | String _ rest => endsWithSlash rest
  end.

(** One step of [normalizeString]: [stack] holds the segments kept so far,
    last one first. *)
Definition push_segment (allowAboveRoot : bool) (stack : list string) (seg : string)
  : list string :=
  if String.eqb seg "" then stack
  else if String.eqb seg "." then stack
  else if String.eqb seg ".." then
    match stack with
    | top :: below =>
        if String.eqb top ".." then (if allowAboveRoot then ".." :: stack else stack)
        else below
    | [] => if allowAboveRoot then [".."] else []
    end
  else seg :: stack.

(** [normalizeString(path, allowAboveRoot)]: drops empty and [.] segments
    and resolves [..]; the result has no leading or trailing slash. *)
Definition normalizeString (p : string) (allowAboveRoot : bool) : string :=
  String.concat "/" (rev (fold_left (push_segment allowAboveRoot) (split p) [])).

(** The loop of [path.resolve]: arguments are taken from the right until an
    absolute one is met; the working directory comes last. *)
Fixpoint resolve_loop (cwd : string) (rev_args : list string) (acc : string)
  : string * bool :=
  match rev_args with
  | [] => if String.eqb cwd "" then (acc, false) else (cwd +:+ "/" +:+ acc, isAbsolute cwd)
  | p :: before =>
      if String.eqb p "" then resolve_loop cwd before acc
      else if isAbsolute p then (p +:+ "/" +:+ acc, true)
      else resolve_loop cwd before (p +:+ "/" +:+ acc)
  end.

(** [path.resolve(...args)] in a process whose working directory is [cwd]. *)
Definition resolve (cwd : string) (args : list string) : string :=
  let '(p, absolute) := resolve_loop cwd (rev args) "" in
  let n := normalizeString p (negb absolute) in
  if absolute then "/" +:+ n
  else if String.eqb n "" then "." else n.

(** [path.normalize(p)]. *)
Definition normalize (p : string) : string :=
  if String.eqb p "" then "."
  else
    let absolute := isAbsolute p in
    let n := normalizeString p (negb absolute) in
    let n := if String.eqb n "" && negb absolute then "." else n in
    let n := if negb (String.eqb n "") && endsWithSlash p then n +:+ "/" else n in
    if absolute then "/" +:+ n else n.

(** [path.join(...args)]. *)
Definition join (args : list string) : string :=
  let parts := List.filter (fun a => negb (String.eqb a "")) args in
  match parts with
  | [] => "."
  | _ => normalize (String.concat "/" parts)
  end.

(** [path.dirname(p)] for a normalised absolute path (used by the concrete
    file system to find the parent of a directory to create). *)
Definition dirname (p : string) : string :=
  "/" +:+ String.concat "/" (removelast (List.filter (fun a => negb (String.eqb a "")) (split p))).

Fixpoint no_slash (s : string) : bool :=
  match s with
  | EmptyString => true
  | String c rest => negb (is_slash c) && no_slash rest
  end.

(** An ordinary file or directory name. *)
Definition plain (seg : string) : bool :=
  no_slash seg && negb (String.eqb seg "") && negb (String.eqb seg ".")
  && negb (String.eqb seg "..").

(** The normalised absolute path with the given segments. *)
Definition absolute_of (segs : list string) : string :=
  "/" +:+ String.concat "/" segs.

End Path.

(** ** The host: settings store, process and extension registry *)

(** [vscode.WorkspaceConfiguration]: [get(key)] yields the stored value, or
    undefined for a key that is not set. *)
Definition config_lookup (config : gmap string value) (key : string) : value :=
  default VUndefined (config !! key).

Record host : Type := Host {
  homedir : string;                       (* os.homedir() *)
  cwd : string;                           (* process.cwd(), used by path.resolve *)
  extensions : gmap string string         (* extension id |-> extensionPath *)
}.

(** ** The file system *)

Record fs_error : Type := FsError { err_code : string; err_message : string }.

(** Node's [fs], as far as the class uses it.  [fs_access] and [fs_mkdir]
    report through their callback; [fs_pipe d src dst] is the disk once the
    stream copy [createReadStream(src).pipe(createWriteStream(dst))] has run
    its course, whether it succeeded or not (its outcome is reported on the
    streams' error events only). *)
Class FileSystem (D : Type) : Type := {
  fs_access : D -> string -> option fs_error;
  fs_mkdir : D -> string -> fs_error + D;
  fs_pipe : D -> string -> string -> D
}.

(** External calls, in the order the class makes them. *)
Inductive event : Type :=
| EvConfigGet (key : string)
| EvHomedir
| EvGetExtension (id : string)
| EvAccess (path : string)
| EvMkdir (path : string)
| EvCreateReadStream (path : string)
| EvCreateWriteStream (path : string).

Definition is_fs_event (e : event) : bool :=
  match e with
  | EvAccess _ | EvMkdir _ | EvCreateReadStream _ | EvCreateWriteStream _ => true
  | EvConfigGet _ | EvHomedir | EvGetExtension _ => false
  end.

(** The world a call runs in: the disk, the stream copies that have been
    started and not yet run their course, and the log of external calls. *)
Record world (D : Type) : Type := World {
  disk : D;
  inflight : list (string * string);
  trace : list event
}.
Arguments World {D} disk inflight trace.
Arguments disk {D} w.
Arguments inflight {D} w.
Arguments trace {D} w.

Definition log {D} (e : event) (w : world D) : world D :=
  World (disk w) (inflight w) (trace w ++ [e]).

Definition set_disk {D} (d : D) (w : world D) : world D :=
  World d (inflight w) (trace w).

Definition start_stream {D} (src dst : string) (w : world D) : world D :=
  World (disk w) (inflight w ++ [(src, dst)]) (trace w).

(** Letting stream copies run their course, in the order they were started. *)
Definition run_copies {D} `{FileSystem D} (copies : list (string * string)) (d : D) : D :=
  fold_left (fun d '(src, dst) => fs_pipe d src dst) copies d.

Definition drain {D} `{FileSystem D} (w : world D) : world D :=
  World (run_copies (inflight w) (disk w)) [] (trace w).

(** ** Synchronous code: state and exceptions *)

Definition M (D A : Type) : Type := world D -> completion A * world D.

Definition ret {D A} (a : A) : M D A := fun w => (Return a, w).

Definition throw {D A} (e : value) : M D A := fun w => (Throw e, w).

Definition bind {D A B} (m : M D A) (k : A -> M D B) : M D B :=
  fun w => match m w with
           | (Return a, w') => k a w'
           | (Throw e, w') => (Throw e, w')
           end.

Definition lift {D A} (c : completion A) : M D A := fun w => (c, w).

Definition emit {D} (e : event) : M D unit := fun w => (Return tt, log e w).

(** [readable.pipe(writable)]: the copy from [src] to [dst] is under way. *)
Definition pipe_streams {D} (src dst : string) : M D unit :=
  fun w => (Return tt, start_stream src dst w).

Declare Scope js_scope.
Delimit Scope js_scope with js.
Notation "'let*' x ':=' m 'in' k" := (bind m (fun x => k))
  (at level 10, x name, m at level 100, k at level 200) : js_scope.
Notation "m ';;' k" := (bind m (fun _ => k))
  (at level 100, k at level 200, right associativity) : js_scope.
Open Scope js_scope.

(** ** Promises (Q)

    A promise is represented by the computation that runs it to settlement:
    the callbacks of one chain run in chain order and nothing else touches the
    world in between.  What outlives the settlement, the stream copies, is
    kept in [inflight].  A computation that throws stands for a method that
    throws before it has returned its promise. *)

Definition promise (D : Type) : Type := M D settled.

(** [p.then(f)]: [f] runs when [p] is fulfilled; what [f] returns (a value or
    a promise) settles the result, and an exception thrown by [f] rejects it. *)
Definition then_ {D} (p : promise D) (f : value -> promise D) : promise D :=
  fun w => match p w with
           | (Return (Fulfilled v), w1) =>
               match f v w1 with
               | (Return s, w2) => (Return s, w2)
               | (Throw e, w2) => (Return (Rejected e), w2)
               end
           | (Return (Rejected r), w1) => (Return (Rejected r), w1)
           | (Throw e, w1) => (Throw e, w1)
           end.

(** [p.catch(h)]: [h] runs when [p] is rejected. *)
Definition catch_ {D} (p : promise D) (h : value -> promise D) : promise D :=
  fun w => match p w with
           | (Return (Fulfilled v), w1) => (Return (Fulfilled v), w1)
           | (Return (Rejected r), w1) =>
               match h r w1 with
               | (Return s, w2) => (Return s, w2)
               | (Throw e, w2) => (Return (Rejected e), w2)
               end
           | (Throw e, w1) => (Throw e, w1)
           end.

Notation "p '.then' f" := (then_ p f) (at level 50, left associativity) : js_scope.
Notation "p '.catch' h" := (catch_ p h) (at level 50, left associativity) : js_scope.

(** [Q.all(promises)]: the array elements are evaluated left to right; the
    result is fulfilled with the array of values when all are, and rejected
    with the reason of the first one that is rejected. *)
Fixpoint Q_all_from {D} (promises : list (promise D)) (values : list value)
                    (first_rejection : option value) : promise D :=
  match promises with
  | [] => match first_rejection with
          | Some r => ret (Rejected r)
          | None => ret (Fulfilled (VArray (rev values)))
          end
  | p :: rest =>
      let* s := p in
      match s with
      | Fulfilled v => Q_all_from rest (v :: values) first_rejection
      | Rejected r =>
          Q_all_from rest values
                     (match first_rejection with Some r0 => Some r0 | None => Some r end)
      end
  end.

Definition Q_all {D} (promises : list (promise D)) : promise D :=
  Q_all_from promises [] None.

(** The idiom [p.then(() => deferred.resolve(v)).catch(err => deferred.reject(m + err))]
    followed by [return deferred.promise]: the returned promise is fulfilled
    with [v] when [p] is, and rejected with [m + err] when [p] is rejected. *)
Definition deferred_promise {D} (p : promise D) (v : value) (m : string) : promise D :=
  let* s := p in
  match s with
  | Fulfilled _ => ret (Fulfilled v)
  | Rejected err => ret (Rejected (VString (m +:+ JS.toString err)))
  end.

(** ** The [Configuration] class *)

Module JSPath.
(** [path.resolve] and [path.join] check that their arguments are strings. *)
Definition as_path (v : value) : completion string :=
  match v with
  | VString s => Return s
  | _ => Throw (JS.TypeError "Path must be a string")
  end.
End JSPath.

Definition page_template_file : string := "journal.page-template.md".

(** The four files [initializeConfigDir] copies, in the order it lists them. *)
Definition default_files : list string :=
  ["settings.json"; "journal.page-template.md"; "journal.note-template.md";
   "journal.inline-templates.json"].

Definition extension_id : string := "pajoma.vscode-journal".

Section Configuration.

Context {D : Type} `{FileSystem D}.

(** [this.config], and the host the extension runs in. *)
Variable config : gmap string value.
Variable os : host.

(** [this.config.get<T>(key)] *)
Definition config_get (key : string) : M D value :=
  emit (EvConfigGet key);;
  ret (config_lookup config key).

Definition getLocale : M D value :=
  let* locale := config_get "locale" in
  let* nonempty := lift (JS.length_gt_0 locale) in
  ret (if nonempty then locale else VString "en-US").

Definition isOpenInNewEditorGroup : M D value :=
  config_get "openInNewEditorGroup".

Definition isDevEnabled : M D value :=
  let* dev := config_get "dev" in
  ret (if JS.truthy dev then dev else VBool false).

Definition getBasePath : M D string :=
  let* base := config_get "base" in
  let* nonempty := lift (JS.length_gt_0 base) in
  if nonempty then
    let* p := lift (JSPath.as_path base) in
    ret (Path.resolve (cwd os) [p])
  else
    (* let's default to home directory *)
    emit EvHomedir;;
    ret (Path.resolve (cwd os) [homedir os; "Journal"]).

(** [checkIfAccessible(path)]: [fs.access] with the default mode; the
    promise is rejected with the error's message. *)
Definition checkIfAccessible (path : string) : promise D :=
  emit (EvAccess path);;
  fun w => match fs_access (disk w) path with
           | None => (Return (Fulfilled VNull), w)
           | Some err => (Return (Rejected (VString (err_message err))), w)
           end.

(** [Q.nfcall(fs.mkdir, path)]: rejected with the error object. *)
Definition Q_nfcall_mkdir (path : string) : promise D :=
  emit (EvMkdir path);;
  fun w => match fs_mkdir (disk w) path with
           | inr d => (Return (Fulfilled VUndefined), set_disk d w)
           | inl err => (Return (Rejected (VError "Error" (err_message err))), w)
           end.

(** [copyTask(source, target, file)]: the callback given to [Q.fcall]
    creates the two streams, pipes one into the other and resolves the
    deferred at once; nothing listens to the streams.  Creating a stream
    on a string path does not throw. *)
Definition copyTask (source target file : string) : promise D :=
  let src := Path.join [source; file] in
  let dst := Path.join [target; file] in
  emit (EvCreateReadStream src);;
  emit (EvCreateWriteStream dst);;
  pipe_streams src dst;;
  ret (Fulfilled VNull).

Definition initializeConfigDir (configDir : string) : promise D :=
  emit (EvGetExtension extension_id);;
  let* extensionPath :=
    match extensions os !! extension_id with
    | Some p => ret p
    | None => throw (JS.TypeError "Cannot read property 'extensionPath' of undefined")
    end in
  let source := Path.resolve (cwd os) [extensionPath; "res"] in
  deferred_promise
    (Q_all [copyTask source configDir "settings.json";
            copyTask source configDir "journal.page-template.md";
            copyTask source configDir "journal.note-template.md";
            copyTask source configDir "journal.inline-templates.json"])
    VNull "Error copying: ".

(** The first statements of [getConfigPath]: which directory it is about. *)
Definition getConfigPath_configDir : M D string :=
  let* configDir := config_get "extDir" in
  let* configured :=
    (if JS.neq_null configDir then lift (JS.length_gt_0 configDir) else ret false) in
  if configured then
    let* p := lift (JSPath.as_path configDir) in
    ret (Path.resolve (cwd os) [p])
  else
    (* default is .vscode in base (we want this folder to be synced) *)
    let* base := getBasePath in
    ret (Path.resolve (cwd os) [base; ".vscode"]).

Definition getConfigPath : promise D :=
  let* configDir := getConfigPath_configDir in
  deferred_promise
    (checkIfAccessible configDir
       .catch (fun err => Q_nfcall_mkdir configDir)
       .then (fun _ =>
                (* check if page template is there *)
                let filePath := Path.join [configDir; "journal.page-template.md"] in
                checkIfAccessible filePath)
       .catch (fun err =>
                (* template not there, copy from extension directory *)
                initializeConfigDir configDir))
    (VString configDir) "Failed to initialize the configuration: ".

(** [s.substring(1, s.length)]; only reached on strings. *)
Definition substring_from_1 (v : value) : value :=
  match v with
  | VString s => VString (JS.substring_1 s)
  | _ => v
  end.

(* defaults to md *)
Definition getFileExtension : M D value :=
  let* ext := config_get "ext" in
  let* dotted := lift (JS.startsWith_dot ext) in
  let ext := if dotted then substring_from_1 ext else ext in
  let* nonempty := lift (JS.length_gt_0 ext) in
  ret (if nonempty then ext else VString "md").

(** The stray expression [this.getIn] reads a property the object does not
    have; it has no effect. *)
Definition getMemoTemplate : M D value :=
  config_get "tpl-memo".

Definition getNotesTemplate : M D value :=
  let* template := config_get "tpl-files" in
  let* after := config_get "tpl-files-after" in
  ret (VTemplateInfo template after).

Definition getTaskTemplate : M D value :=
  let* template := config_get "tpl-task" in
  let* after := config_get "tpl-task-after" in
  ret (VTemplateInfo template after).

Definition getTodoTemplate : M D value :=
  let* template := config_get "tpl-todo" in
  let* after := config_get "tpl-todo-after" in
  ret (VTemplateInfo template after).

End Configuration.

Definition isTemplateInfo (v : value) : bool :=
  match v with
  | VTemplateInfo _ _ => true
  | _ => false
  end.

(** ** A concrete file system: a map from normalised absolute paths to nodes *)

Inductive node : Type :=
| Dir
| File (content : string).

Module Disk.

Definition ENOENT (syscall path : string) : fs_error :=
  FsError "ENOENT" ("ENOENT: no such file or directory, " +:+ syscall +:+ " '" +:+ path +:+ "'").
Definition EEXIST (syscall path : string) : fs_error :=
  FsError "EEXIST" ("EEXIST: file already exists, " +:+ syscall +:+ " '" +:+ path +:+ "'").
Definition ENOTDIR (syscall path : string) : fs_error :=
  FsError "ENOTDIR" ("ENOTDIR: not a directory, " +:+ syscall +:+ " '" +:+ path +:+ "'").

Definition access (d : gmap string node) (path : string) : option fs_error :=
  match d !! path with
  | Some _ => None
  | None => Some (ENOENT "access" path)
  end.

(** [fs.mkdir] creates one directory; its parent has to be there. *)
Definition mkdir (d : gmap string node) (path : string) : fs_error + gmap string node :=
  match d !! path with
  | Some _ => inl (EEXIST "mkdir" path)
  | None =>
      match d !! Path.dirname path with
      | Some Dir => inr (<[path := Dir]> d)
      | Some (File _) => inl (ENOTDIR "mkdir" path)
      | None => inl (ENOENT "mkdir" path)
      end
  end.

(** A stream copy that has run its course.  The write stream opens its
    file (creating or truncating it) when the directory is there and the
    destination is not itself a directory; the content arrives only when
    the source can be read. *)
Definition pipe (d : gmap string node) (src dst : string) : gmap string node :=
  match d !! Path.dirname dst, d !! dst with
  | Some Dir, Some Dir => d
  | Some Dir, _ =>
      <[dst := File (match d !! src with Some (File c) => c | _ => "" end)]> d
  | _, _ => d
  end.

#[global] Instance disk_fs : FileSystem (gmap string node) :=
  {| fs_access := access; fs_mkdir := mkdir; fs_pipe := pipe |}.

Definition exists_at (d : gmap string node) (path : string) : bool :=
  bool_decide (is_Some (d !! path)).

End Disk.

(** ** What a run did *)

(** The file-system calls of a run, in order. *)
Definition fs_calls {D} (w : world D) : list event :=
  List.filter is_fs_event (trace w).

(** The stream copies [initializeConfigDir] starts, and the calls they make. *)
Definition seed_copies (source target : string) : list (string * string) :=
  List.map (fun file => (Path.join [source; file], Path.join [target; file])) default_files.

Definition seed_calls (source target : string) : list event :=
  List.concat (List.map (fun '(src, dst) => [EvCreateReadStream src; EvCreateWriteStream dst])
                        (seed_copies source target)).

(** The copies of [files] from the directory with segments [src_segs] into
    the directory with segments [segs]. *)
Definition copies_of (src_segs segs : list string) (files : list string)
  : list (string * string) :=
  List.map (fun f => (Path.absolute_of (src_segs ++ [f]), Path.absolute_of (segs ++ [f]))) files.

(** Whether the chain of [getConfigPath] reaches [initializeConfigDir]: the
    second [catch] handles every rejection before it, that of [fs.mkdir]
    included. *)
Definition reaches_seeding {D} `{FileSystem D} (d : D) (dir : string) : bool :=
  match fs_access d dir with
  | None => bool_decide (is_Some (fs_access d (Path.join [dir; page_template_file])))
  | Some _ =>
      match fs_mkdir d dir with
      | inl _ => true
      | inr d' => bool_decide (is_Some (fs_access d' (Path.join [dir; page_template_file])))
      end
  end.

(** ** Sample installations *)

Module Scenario.

Definition os : host :=
  Host "/home/u" "/work" {[ extension_id := "/ext" ]}.

(** Sample settings: empty strings for the path, extension and locale
    settings, no [extDir]. *)
Definition settings : gmap string value :=
  {[ "base" := VString ""; "ext" := VString ""; "locale" := VString "";
     "tpl-memo" := VString "- MEMO: ${input}";
     "tpl-files" := VString "- NOTE: [${title}](${link})";
     "tpl-files-after" := VString "" ]}.

Definition config_dir : string := "/home/u/Journal/.vscode".

(** The content of the bundled default files. *)
Definition bundled (file : string) : string :=
  if String.eqb file "settings.json" then "{}"
  else if String.eqb file "journal.page-template.md" then "# ${date}"
  else if String.eqb file "journal.note-template.md" then "# ${input}"
  else "[]".

Definition bundle : list (string * node) :=
  [("/ext", Dir); ("/ext/res", Dir);
   ("/ext/res/settings.json", File (bundled "settings.json"));
   ("/ext/res/journal.page-template.md", File (bundled "journal.page-template.md"));
   ("/ext/res/journal.note-template.md", File (bundled "journal.note-template.md"));
   ("/ext/res/journal.inline-templates.json", File (bundled "journal.inline-templates.json"))].

(** A new machine: the home directory is there, [~/Journal] is not. *)
Definition fresh : gmap string node :=
  list_to_map ([("/", Dir); ("/home", Dir); ("/home/u", Dir)] ++ bundle).

(** [~/Journal] exists, its [.vscode] does not. *)
Definition with_journal : gmap string node :=
  <["/home/u/Journal" := Dir]> fresh.

(** The user edited three files and deleted the page template. *)
Definition page_template_deleted : gmap string node :=
  <["/home/u/Journal/.vscode/settings.json" := File "{ mine }"]>
  (<["/home/u/Journal/.vscode/journal.note-template.md" := File "# my note"]>
  (<["/home/u/Journal/.vscode/journal.inline-templates.json" := File "[ mine ]"]>
  (<["/home/u/Journal/.vscode" := Dir]> with_journal))).

(** An empty configuration directory and a bundle without [settings.json]. *)
Definition bundle_incomplete : gmap string node :=
  delete "/ext/res/settings.json" (<["/home/u/Journal/.vscode" := Dir]> with_journal).

Definition start (d : gmap string node) : world (gmap string node) := World d [] [].

(** The state a first call leaves on a machine with [~/Journal], once its
    copies have run their course. *)
Definition after_first_call : world (gmap string node) :=
  drain (snd (getConfigPath settings os (start with_journal))).

End Scenario.

(** ** Reading the templates *)

(** [fs.readFile(path, "utf-8", callback)]: the text of the file, or an
    error.  Reading looks at the disk and leaves it as it is. *)
Class FileReader (D : Type) : Type := {
  fs_readFile : D -> string -> fs_error + string
}.

Module JSText.
(** [data.toString()]: a method call, so it throws on undefined and null. *)
Definition toString_method (v : value) : completion string :=
  match v with
  | VUndefined => Throw (JS.TypeError "Cannot read property 'toString' of undefined")
  | VNull => Throw (JS.TypeError "Cannot read property 'toString' of null")
  | _ => Return (JS.toString v)
  end.
End JSText.

(** The idiom [p.then(data => deferred.resolve(data.toString()))
    .catch(reason => deferred.reject(m + reason))] followed by
    [return deferred.promise]. *)
Definition deferred_text {D} (p : promise D) (m : string) : promise D :=
  let* s := p in
  match s with
  | Fulfilled data =>
      match JSText.toString_method data with
      | Return text => ret (Fulfilled (VString text))
      | Throw e => ret (Rejected (VString (m +:+ JS.toString e)))
      end
  | Rejected reason => ret (Rejected (VString (m +:+ JS.toString reason)))
  end.

Section Templates.

Context {D : Type} `{FileSystem D} `{FileReader D}.
Variable config : gmap string value.
Variable os : host.

(** [Q.nfcall(fs.readFile, path, "utf-8")]: fulfilled with the text,
    rejected with the error object. *)
Definition Q_nfcall_readFile (path : string) : promise D :=
  fun w => match fs_readFile (disk w) path with
           | inr data => (Return (Fulfilled (VString data)), w)
           | inl err => (Return (Rejected (VError "Error" (err_message err))), w)
           end.

(** Load the page template from the resource directory (in .vscode in workspace) *)
Definition getPageTemplate : promise D :=
  deferred_text
    (getConfigPath config os
       .then (fun configPath =>
                let* dir := lift (JSPath.as_path configPath) in
                Q_nfcall_readFile (Path.join [dir; "journal.page-template.md"])))
    "Failed to get page template. Reason: ".

Definition getNotesPagesTemplate : promise D :=
  deferred_text
    (getConfigPath config os
       .then (fun configPath =>
                let* dir := lift (JSPath.as_path configPath) in
                Q_nfcall_readFile (Path.join [dir; "journal.note-template.md"])))
    "Failed to get note template. Reason: ".

Definition getInlineTemplates : promise D :=
  deferred_text
    (getConfigPath config os
       .then (fun configPath =>
                let* dir := lift (JSPath.as_path configPath) in
                Q_nfcall_readFile (Path.join [dir; "journal.inline-templates.json"])))
    "Failed to get configuration of inline templates. Reason: ".

End Templates.

Module DiskRead.

Definition EISDIR (syscall : string) : fs_error :=
  FsError "EISDIR" ("EISDIR: illegal operation on a directory, " +:+ syscall).

Definition readFile (d : gmap string node) (path : string) : fs_error + string :=
  match d !! path with
  | Some (File content) => inr content
  | Some Dir => inl (EISDIR "read")
  | None => inl (Disk.ENOENT "open" path)
  end.

#[global] Instance disk_reader : FileReader (gmap string node) :=
  {| fs_readFile := readFile |}.

End DiskRead.

(** The final disk of a first use: the directory, its four files with the
    content [content] gives them, and everything else as on [d]. *)
Definition seeded (segs : list string) (content : string -> string) (d : gmap string node)
  : gmap string node :=
  fold_right (fun f d' => <[Path.absolute_of (segs ++ [f]) := File (content f)]> d')
             (<[Path.absolute_of segs := Dir]> d) default_files.

(** A call left the disk and the started copies as they were. *)
Definition untouched {D} (w w' : world D) : Prop :=
  disk w' = disk w /\ inflight w' = inflight w.

Module Scenario2.

(** A host on which the extension is not registered under the id the class
    looks up. *)
Definition os_unregistered : host :=
  Host "/home/u" "/work" ∅.

(** The configuration directory is set explicitly; no [base]. *)
Definition settings_extDir : gmap string value :=
  {[ "extDir" := VString "/data/journal-config" ]}.

(** A relative base directory. *)
Definition settings_relative : gmap string value :=
  {[ "base" := VString "notes/journal" ]}.

(** An absolute base directory. *)
Definition settings_absolute : gmap string value :=
  {[ "base" := VString "/data/journal" ]}.

(** The configuration directory holds the page template only. *)
Definition page_template_only : gmap string node :=
  <["/home/u/Journal/.vscode/journal.page-template.md" := File "# ${date}"]>
  (<["/home/u/Journal/.vscode" := Dir]> Scenario.with_journal).


(** A reader that fails on every file. *)
Definition failing_reader : FileReader (gmap string node) :=
  {| fs_readFile := fun _ path => inl (FsError "EIO" ("EIO: i/o error, read '" +:+ path +:+ "'")) |}.

End Scenario2.

(** * Properties *)

(** ** The [path] model on sample inputs *)

Example resolve_abs : Path.resolve "/work" ["/home/u/Journal"; ".vscode"] = "/home/u/Journal/.vscode".
Proof. reflexivity. Qed.
Example resolve_rel : Path.resolve "/work" ["notes/../journal/"] = "/work/journal".
Proof. reflexivity. Qed.
Example resolve_root : Path.resolve "/work" ["/"; "Journal"] = "/Journal".
Proof. reflexivity. Qed.
Example join_file : Path.join ["/home/u/Journal/.vscode"; "journal.page-template.md"]
                    = "/home/u/Journal/.vscode/journal.page-template.md".
Proof. reflexivity. Qed.
Example join_dots : Path.join ["a/b"; "../c/"] = "a/c/".
Proof. reflexivity. Qed.
Example dirname_ex : Path.dirname "/home/u/Journal/.vscode" = "/home/u/Journal".
Proof. reflexivity. Qed.


(** ** Facts about the [path] model *)

Module PathFacts.
Import Path.

Lemma append_cons (c : ascii) (s t : string) : String c s +:+ t = String c (s +:+ t).
Proof. reflexivity. Qed.

Lemma append_empty (t : string) : "" +:+ t = t.
Proof. reflexivity. Qed.

Lemma append_assoc (a b c : string) : (a +:+ b) +:+ c = a +:+ (b +:+ c).
Proof.
  induction a as [|x a IH]; [reflexivity|].
  rewrite !append_cons. f_equal. exact IH.
Qed.

Lemma split_segment (seg rest : string) :
  no_slash seg = true -> split (seg +:+ "/" +:+ rest) = seg :: split rest.
Proof.
  induction seg as [|c seg IH]; intros Hs; [reflexivity|].
  simpl in Hs. apply andb_true_iff in Hs as [Hc Hs]. apply negb_true_iff in Hc.
  rewrite append_cons. simpl. rewrite Hc, (IH Hs). reflexivity.
Qed.

Lemma plain_no_slash seg : plain seg = true -> no_slash seg = true.
Proof. unfold plain. rewrite !andb_true_iff. tauto. Qed.

Lemma split_concat (segs : list string) (rest : string) :
  Forall (fun seg => plain seg = true) segs ->
  split (String.concat "/" segs +:+ "/" +:+ rest)
  = match segs with [] => [""] | _ => segs end ++ split rest.
Proof.
  induction 1 as [|seg segs Hseg Hsegs IH]; [reflexivity|].
  destruct segs as [|seg' segs].
  - simpl. now rewrite split_segment by now apply plain_no_slash.
  - change (String.concat "/" (seg :: seg' :: segs))
      with (seg +:+ "/" +:+ String.concat "/" (seg' :: segs)).
    rewrite !append_assoc. rewrite split_segment by now apply plain_no_slash.
    rewrite IH. reflexivity.
Qed.

Lemma push_plain b stack seg : plain seg = true -> push_segment b stack seg = seg :: stack.
Proof.
  unfold plain, push_segment. rewrite !andb_true_iff, !negb_true_iff.
  intros (((_ & -> ) & ->) & ->). reflexivity.
Qed.

Lemma fold_push_plain b (segs : list string) stack :
  Forall (fun seg => plain seg = true) segs ->
  fold_left (push_segment b) segs stack = rev segs ++ stack.
Proof.
  intros Hs. revert stack. induction Hs as [|seg segs Hseg Hsegs IH]; intros stack; [reflexivity|].
  simpl. rewrite push_plain by assumption. rewrite IH, <- app_assoc. reflexivity.
Qed.

Lemma concat_snoc (segs : list string) (name : string) :
  segs <> [] -> String.concat "/" (segs ++ [name]) = String.concat "/" segs +:+ "/" +:+ name.
Proof.
  induction segs as [|seg segs IH]; [congruence|]. intros _.
  destruct segs as [|seg' segs]; [reflexivity|].
  change (String.concat "/" ((seg :: seg' :: segs) ++ [name]))
    with (seg +:+ "/" +:+ String.concat "/" ((seg' :: segs) ++ [name])).
  rewrite IH by congruence.
  change (String.concat "/" (seg :: seg' :: segs))
    with (seg +:+ "/" +:+ String.concat "/" (seg' :: segs)).
  now rewrite !append_assoc.
Qed.

Lemma normalize_child (segs : list string) (name : string) :
  Forall (fun seg => plain seg = true) segs -> plain name = true ->
  normalizeString (absolute_of segs +:+ "/" +:+ name +:+ "/") false
  = String.concat "/" (segs ++ [name]).
Proof.
  intros Hsegs Hname. unfold normalizeString, absolute_of.
  rewrite append_assoc. rewrite append_cons, append_empty.
  cbn [split is_slash Ascii.eqb Bool.eqb].
  rewrite split_concat by assumption.
  change (name +:+ "/") with (name +:+ "/" +:+ "").
  rewrite split_segment by now apply plain_no_slash.
  cbn [split fold_left]. change (push_segment false [] "") with (@nil string).
  rewrite fold_left_app.
  assert (Hhead : fold_left (push_segment false) match segs with [] => [""] | _ => segs end []
                  = rev segs).
  { destruct segs; [reflexivity|]. rewrite fold_push_plain, app_nil_r by assumption. reflexivity. }
  rewrite Hhead. cbn [fold_left]. rewrite (push_plain false (rev segs) name) by assumption.
  change (push_segment false (name :: rev segs) "") with (name :: rev segs).
  change (name :: rev segs) with (rev [name] ++ rev segs).
  rewrite <- (rev_app_distr segs [name]), rev_involutive. reflexivity.
Qed.

(** [path.resolve(parent, name)] for a normalised absolute [parent] and an
    ordinary [name] is the child of [parent] called [name]. *)
Lemma resolve_child (cwd : string) (segs : list string) (name : string) :
  Forall (fun seg => plain seg = true) segs -> plain name = true ->
  resolve cwd [absolute_of segs; name] = absolute_of (segs ++ [name]).
Proof.
  intros Hsegs Hname. unfold resolve. cbn [rev app resolve_loop].
  assert (Hne : String.eqb name "" = false).
  { unfold plain in Hname. rewrite !andb_true_iff, !negb_true_iff in Hname. tauto. }
  assert (Hrel : isAbsolute name = false).
  { apply plain_no_slash in Hname. destruct name as [|c name]; [reflexivity|].
    simpl in *. apply andb_true_iff in Hname as [Hc _]. now apply negb_true_iff in Hc. }
  rewrite Hne, Hrel. 
  change (String.eqb (absolute_of segs) "") with false.
  change (isAbsolute (absolute_of segs)) with true.
  cbn [negb]. change (name +:+ "/" +:+ "") with (name +:+ "/").
  rewrite normalize_child by assumption. reflexivity.
Qed.

Lemma absolute_of_child (segs : list string) (name : string) :
  segs <> [] -> absolute_of (segs ++ [name]) = absolute_of segs +:+ "/" +:+ name.
Proof.
  intros Hne. unfold absolute_of. rewrite concat_snoc by assumption.
  now rewrite !append_cons, !append_empty.
Qed.

Lemma split_no_slash (seg : string) : no_slash seg = true -> split seg = [seg].
Proof.
  induction seg as [|c seg IH]; intros Hs; [reflexivity|].
  simpl in Hs. apply andb_true_iff in Hs as [Hc Hs]. apply negb_true_iff in Hc.
  simpl. rewrite Hc, (IH Hs). reflexivity.
Qed.

Lemma normalize_child_bare (segs : list string) (name : string) :
  Forall (fun seg => plain seg = true) segs -> plain name = true ->
  normalizeString (absolute_of segs +:+ "/" +:+ name) false
  = String.concat "/" (segs ++ [name]).
Proof.
  intros Hsegs Hname. unfold normalizeString, absolute_of.
  rewrite append_assoc. rewrite append_cons, append_empty.
  cbn [split is_slash Ascii.eqb Bool.eqb].
  rewrite split_concat by assumption.
  rewrite split_no_slash by now apply plain_no_slash.
  cbn [fold_left]. change (push_segment false [] "") with (@nil string).
  rewrite fold_left_app.
  assert (Hhead : fold_left (push_segment false) match segs with [] => [""] | _ => segs end []
                  = rev segs).
  { destruct segs; [reflexivity|]. rewrite fold_push_plain, app_nil_r by assumption. reflexivity. }
  rewrite Hhead. cbn [fold_left]. rewrite (push_plain false (rev segs) name) by assumption.
  change (name :: rev segs) with (rev [name] ++ rev segs).
  rewrite <- (rev_app_distr segs [name]), rev_involutive. reflexivity.
Qed.

Lemma endsWithSlash_app (a name : string) :
  name <> "" -> endsWithSlash (a +:+ name) = endsWithSlash name.
Proof.
  intros Hne. induction a as [|c a IH]; [reflexivity|].
  rewrite append_cons, <- IH.
  destruct (a +:+ name) eqn:E; [|reflexivity].
  destruct a; [|discriminate]. rewrite append_empty in E. contradiction.
Qed.

Lemma endsWithSlash_no_slash (name : string) : no_slash name = true -> endsWithSlash name = false.
Proof.
  induction name as [|c name IH]; [reflexivity|]. simpl. intros Hs.
  apply andb_true_iff in Hs as [Hc Hs]. apply negb_true_iff in Hc.
  destruct name; [assumption | now apply IH].
Qed.

Lemma plain_nonempty name : plain name = true -> String.eqb name "" = false.
Proof. unfold plain. rewrite !andb_true_iff, !negb_true_iff. tauto. Qed.

(** [path.join(parent, name)], likewise. *)
Lemma join_child (segs : list string) (name : string) :
  Forall (fun seg => plain seg = true) segs -> plain name = true ->
  join [absolute_of segs; name] = absolute_of (segs ++ [name]).
Proof.
  intros Hsegs Hname. pose proof (plain_nonempty _ Hname) as Hne.
  unfold join. cbn [List.filter]. change (String.eqb (absolute_of segs) "") with false.
  rewrite Hne. cbn [negb String.concat]. unfold normalize.
  change (String.eqb (absolute_of segs +:+ "/" +:+ name) "") with false.
  change (isAbsolute (absolute_of segs +:+ "/" +:+ name)) with true. cbn [negb].
  rewrite normalize_child_bare by assumption.
  rewrite andb_false_r.
  rewrite <- append_assoc, endsWithSlash_app, endsWithSlash_no_slash, andb_false_r.
  - reflexivity.
  - now apply plain_no_slash.
  - intros ->. discriminate.
Qed.

End PathFacts.

(** ** How the methods run *)

Ltac js_unfold :=
  unfold deferred_promise, then_, catch_, Q_all, checkIfAccessible, Q_nfcall_mkdir,
    config_get, bind, emit, pipe_streams, ret, throw, lift, log, set_disk, start_stream in *.

Ltac js_step := cbv [getConfigPath_configDir config_get bind emit ret lift throw log].

Section Runs.

Context {D : Type} `{FileSystem D}.
Variable config : gmap string value.
Variable os : host.

Lemma getBasePath_frame (w : world D) :
  exists evs, snd (getBasePath config os w) = World (disk w) (inflight w) (trace w ++ evs)
              /\ List.filter is_fs_event evs = [].
Proof.
  unfold getBasePath. js_unfold.
  destruct (config_lookup config "base") as [| |b|n|s|l|t a|n m]; simpl;
    try (destruct (negb _)); simpl;
    rewrite <- ?app_assoc; eexists; (split; [reflexivity|reflexivity]).
Qed.

Lemma getBasePath_indep (w w' : world D) :
  fst (getBasePath config os w) = fst (getBasePath config os w').
Proof.
  unfold getBasePath. js_unfold.
  destruct (config_lookup config "base") as [| |b|n|s|l|t a|n m]; simpl;
    try (destruct (negb _)); reflexivity.
Qed.

Lemma getConfigPath_configDir_frame (w : world D) :
  exists evs, snd (getConfigPath_configDir config os w)
              = World (disk w) (inflight w) (trace w ++ evs)
              /\ List.filter is_fs_event evs = [].
Proof.
  destruct (getBasePath_frame (log (EvConfigGet "extDir") w)) as (evs & Hs & Hf).
  js_step; fold (log (EvConfigGet "extDir") w).
  destruct (config_lookup config "extDir") as [| |b0|n|s|l|t a|n m]; simpl;
    try (match goal with |- context [if ?c then _ else _] => destruct c end; simpl);
    try (exists [EvConfigGet "extDir"]; split; reflexivity);
    (destruct (getBasePath config os _) as [[b|e] w2]; simpl in Hs; subst w2; simpl;
     exists (EvConfigGet "extDir" :: evs); simpl; rewrite Hf, <- app_assoc; auto).
Qed.

Lemma getConfigPath_configDir_indep (w w' : world D) :
  fst (getConfigPath_configDir config os w) = fst (getConfigPath_configDir config os w').
Proof.
  pose proof (getBasePath_indep (log (EvConfigGet "extDir") w)
                                (log (EvConfigGet "extDir") w')) as Hi.
  js_step; fold (log (EvConfigGet "extDir") w); fold (log (EvConfigGet "extDir") w').
  destruct (config_lookup config "extDir") as [| |b0|n|s|l|t a|n m]; simpl;
    try (match goal with |- context [if ?c then _ else _] => destruct c end; simpl);
    try reflexivity;
    (destruct (getBasePath config os _) as [[b|e] w2],
              (getBasePath config os _) as [[b'|e'] w3];
     simpl in Hi; try discriminate; injection Hi as ->; reflexivity).
Qed.

Lemma copyTask_run (source target file : string) (w : world D) :
  copyTask source target file w
  = (Return (Fulfilled VNull),
     World (disk w)
           (inflight w ++ [(Path.join [source; file], Path.join [target; file])])
           (trace w ++ [EvCreateReadStream (Path.join [source; file]);
                        EvCreateWriteStream (Path.join [target; file])])).
Proof. unfold copyTask. js_unfold. simpl. rewrite <- app_assoc. reflexivity. Qed.

Lemma initializeConfigDir_run (configDir p : string) (w : world D) :
  extensions os !! extension_id = Some p ->
  initializeConfigDir os configDir w
  = (Return (Fulfilled VNull),
     World (disk w)
           (inflight w ++ seed_copies (Path.resolve (cwd os) [p; "res"]) configDir)
           (trace w ++ EvGetExtension extension_id
                    :: seed_calls (Path.resolve (cwd os) [p; "res"]) configDir)).
Proof.
  intros Hp. unfold initializeConfigDir.
  unfold bind at 1. unfold emit. unfold bind at 1. rewrite Hp. unfold ret at 1.
  unfold deferred_promise, Q_all, Q_all_from.
  unfold bind. rewrite !copyTask_run. simpl.
  unfold ret. rewrite <- !app_assoc. reflexivity.
Qed.

Lemma initializeConfigDir_no_extension (configDir : string) (w : world D) :
  extensions os !! extension_id = None ->
  initializeConfigDir os configDir w
  = (Throw (JS.TypeError "Cannot read property 'extensionPath' of undefined"),
     log (EvGetExtension extension_id) w).
Proof.
  intros Hp. unfold initializeConfigDir.
  unfold bind at 1. unfold emit. unfold bind at 1. rewrite Hp. reflexivity.
Qed.


Lemma getConfigPath_configDir_world (w w1 : world D) (dir : string) :
  getConfigPath_configDir config os w = (Return dir, w1) ->
  disk w1 = disk w /\ inflight w1 = inflight w /\ fs_calls w1 = fs_calls w.
Proof.
  intros Hdir. destruct (getConfigPath_configDir_frame w) as (evs & Hs & Hf).
  rewrite Hdir in Hs. simpl in Hs. subst w1. unfold fs_calls. simpl.
  rewrite List.filter_app, Hf, app_nil_r. auto.
Qed.

Ltac chain_step :=
  cbv [deferred_promise then_ catch_ checkIfAccessible Q_nfcall_mkdir
       bind emit ret log set_disk]; simpl.

(** Page template present: nothing is created. *)
Lemma getConfigPath_present (w w1 : world D) (dir : string) :
  getConfigPath_configDir config os w = (Return dir, w1) ->
  fs_access (disk w) dir = None ->
  fs_access (disk w) (Path.join [dir; page_template_file]) = None ->
  getConfigPath config os w
  = (Return (Fulfilled (VString dir)),
     World (disk w) (inflight w)
           (trace w1 ++ [EvAccess dir; EvAccess (Path.join [dir; page_template_file])])).
Proof.
  intros Hdir Hacc Htpl.
  destruct (getConfigPath_configDir_world _ _ _ Hdir) as (Hd & Hi & _).
  unfold getConfigPath, bind at 1. rewrite Hdir.
  chain_step. rewrite Hd, Hacc. simpl. rewrite ?Hd.
  unfold page_template_file in Htpl. rewrite Htpl. simpl.
  rewrite ?Hi, <- ?app_assoc. reflexivity.
Qed.

Lemma getConfigPath_reseed (w w1 : world D) (dir p : string) (e : fs_error) :
  getConfigPath_configDir config os w = (Return dir, w1) ->
  fs_access (disk w) dir = None ->
  fs_access (disk w) (Path.join [dir; page_template_file]) = Some e ->
  extensions os !! extension_id = Some p ->
  getConfigPath config os w
  = (Return (Fulfilled (VString dir)),
     World (disk w)
           (inflight w ++ seed_copies (Path.resolve (cwd os) [p; "res"]) dir)
           (trace w1 ++ [EvAccess dir; EvAccess (Path.join [dir; page_template_file]);
                         EvGetExtension extension_id]
                    ++ seed_calls (Path.resolve (cwd os) [p; "res"]) dir)).
Proof.
  intros Hdir Hacc Htpl Hext.
  destruct (getConfigPath_configDir_world _ _ _ Hdir) as (Hd & Hi & _).
  unfold getConfigPath, bind at 1. rewrite Hdir.
  chain_step. rewrite Hd, Hacc. simpl. rewrite ?Hd.
  unfold page_template_file in Htpl. rewrite Htpl. simpl.
  rewrite (initializeConfigDir_run _ _ _ Hext). simpl.
  rewrite ?Hi, ?Hd, <- ?app_assoc. reflexivity.
Qed.

Lemma getConfigPath_mkdir_failed (w w1 : world D) (dir p : string) (e1 e2 : fs_error) :
  getConfigPath_configDir config os w = (Return dir, w1) ->
  fs_access (disk w) dir = Some e1 ->
  fs_mkdir (disk w) dir = inl e2 ->
  extensions os !! extension_id = Some p ->
  getConfigPath config os w
  = (Return (Fulfilled (VString dir)),
     World (disk w)
           (inflight w ++ seed_copies (Path.resolve (cwd os) [p; "res"]) dir)
           (trace w1 ++ [EvAccess dir; EvMkdir dir; EvGetExtension extension_id]
                    ++ seed_calls (Path.resolve (cwd os) [p; "res"]) dir)).
Proof.
  intros Hdir Hacc Hmk Hext.
  destruct (getConfigPath_configDir_world _ _ _ Hdir) as (Hd & Hi & _).
  unfold getConfigPath, bind at 1. rewrite Hdir.
  chain_step. rewrite Hd, Hacc. simpl. rewrite ?Hd, Hmk. simpl.
  rewrite (initializeConfigDir_run _ _ _ Hext). simpl.
  rewrite ?Hi, ?Hd, <- ?app_assoc. reflexivity.
Qed.

Lemma getConfigPath_created (w w1 : world D) (dir p : string) (e1 e2 : fs_error) (d' : D) :
  getConfigPath_configDir config os w = (Return dir, w1) ->
  fs_access (disk w) dir = Some e1 ->
  fs_mkdir (disk w) dir = inr d' ->
  fs_access d' (Path.join [dir; page_template_file]) = Some e2 ->
  extensions os !! extension_id = Some p ->
  getConfigPath config os w
  = (Return (Fulfilled (VString dir)),
     World d'
           (inflight w ++ seed_copies (Path.resolve (cwd os) [p; "res"]) dir)
           (trace w1 ++ [EvAccess dir; EvMkdir dir;
                         EvAccess (Path.join [dir; page_template_file]);
                         EvGetExtension extension_id]
                    ++ seed_calls (Path.resolve (cwd os) [p; "res"]) dir)).
Proof.
  intros Hdir Hacc Hmk Htpl Hext.
  destruct (getConfigPath_configDir_world _ _ _ Hdir) as (Hd & Hi & _).
  unfold getConfigPath, bind at 1. rewrite Hdir.
  chain_step. rewrite ?Hd, Hacc. simpl. rewrite ?Hd, Hmk. simpl.
  unfold page_template_file in Htpl. rewrite Htpl. simpl.
  rewrite (initializeConfigDir_run _ _ _ Hext). simpl.
  rewrite ?Hi, <- ?app_assoc. reflexivity.
Qed.

Lemma getConfigPath_outcome (w w1 : world D) (dir : string) :
  getConfigPath_configDir config os w = (Return dir, w1) ->
  fst (getConfigPath config os w)
  = Return (if reaches_seeding (disk w) dir && bool_decide (extensions os !! extension_id = None)
            then Rejected (VString ("Failed to initialize the configuration: "
                                    +:+ "TypeError: Cannot read property 'extensionPath' of undefined"))
            else Fulfilled (VString dir)).
Proof.
  intros Hdir.
  destruct (getConfigPath_configDir_world _ _ _ Hdir) as (Hd & _ & _).
  unfold getConfigPath, bind at 1. rewrite Hdir.
  unfold reaches_seeding, page_template_file. rewrite <- Hd.
  chain_step.
  destruct (extensions os !! extension_id) as [p|] eqn:Hext.
  - rewrite andb_false_r.
    repeat (match goal with |- context [fs_access ?d ?p] => destruct (fs_access d p) end; simpl;
            try match goal with |- context [fs_mkdir ?d ?p] => destruct (fs_mkdir d p) end; simpl);
      rewrite ?(initializeConfigDir_run _ _ _ Hext); reflexivity.
  - repeat (match goal with |- context [fs_access ?d ?p] => destruct (fs_access d p) end; simpl;
            try match goal with |- context [fs_mkdir ?d ?p] => destruct (fs_mkdir d p) end; simpl);
      rewrite ?(initializeConfigDir_no_extension _ _ Hext); reflexivity.
Qed.

End Runs.

(** ** Initialising the configuration directory *)

Section Initializer.

Context {D : Type} `{FileSystem D}.
Variable config : gmap string value.
Variable os : host.

(** C10.  [copyTask] fulfils its promise with null as soon as the two streams
    are created and piped, whatever the disk holds: the copy is only started
    (it joins [inflight], the disk is as before) and no outcome of the
    streams is looked at.  Hence [initializeConfigDir] is never rejected:
    on every disk it leaves the disk as it is and is fulfilled with null,
    unless the extension is not registered, in which case it throws before
    any copy is started. *)
Theorem copyTask_resolves_unconditionally
    (source target file configDir : string) (w : world D) :
  copyTask source target file w
  = (Return (Fulfilled VNull),
     World (disk w)
           (inflight w ++ [(Path.join [source; file], Path.join [target; file])])
           (trace w ++ [EvCreateReadStream (Path.join [source; file]);
                        EvCreateWriteStream (Path.join [target; file])]))
  /\ fst (initializeConfigDir os configDir w)
     = match extensions os !! extension_id with
       | Some _ => Return (Fulfilled VNull)
       | None => Throw (JS.TypeError "Cannot read property 'extensionPath' of undefined")
       end
  /\ (forall reason, fst (initializeConfigDir os configDir w) <> Return (Rejected reason))
  /\ disk (snd (initializeConfigDir os configDir w)) = disk w.
Proof.
  split; [apply copyTask_run|].
  destruct (extensions os !! extension_id) as [p|] eqn:Hext.
  - rewrite (initializeConfigDir_run os configDir p w Hext). simpl.
    repeat split; intros; discriminate.
  - rewrite (initializeConfigDir_no_extension os configDir w Hext). simpl.
    repeat split; intros; discriminate.
Qed.

(** C1 (the code does not do this).  When the configuration directory is
    inaccessible and [fs.mkdir] fails, [getConfigPath] does not reject: the
    rejection of [mkdir] skips the check of the page template and lands in
    the [catch] that calls [initializeConfigDir], so the four copies are
    started into the directory that could not be created and the promise is
    fulfilled with its path. *)
Theorem getConfigPath_mkdir_failure_not_propagated
    (w : world D) (dir p : string) (e1 e2 : fs_error) :
  fst (getConfigPath_configDir config os w) = Return dir ->
  fs_access (disk w) dir = Some e1 ->
  fs_mkdir (disk w) dir = inl e2 ->
  extensions os !! extension_id = Some p ->
  exists w',
    getConfigPath config os w = (Return (Fulfilled (VString dir)), w')
    /\ disk w' = disk w
    /\ inflight w' = inflight w ++ seed_copies (Path.resolve (cwd os) [p; "res"]) dir
    /\ fs_calls w' = fs_calls w ++ [EvAccess dir; EvMkdir dir]
                     ++ seed_calls (Path.resolve (cwd os) [p; "res"]) dir.
Proof.
  intros Hfst Hacc Hmk Hext.
  destruct (getConfigPath_configDir config os w) as [c w1] eqn:Hdir.
  simpl in Hfst. subst c.
  destruct (getConfigPath_configDir_world config os _ _ _ Hdir) as (_ & _ & Hc).
  eexists. split; [apply (getConfigPath_mkdir_failed config os _ _ _ _ _ _ Hdir Hacc Hmk Hext)|].
  unfold fs_calls in *. simpl. rewrite List.filter_app, Hc. auto.
Qed.

(** C4.  In a state where the configuration directory and its page template
    are accessible (as they are once the directory has been initialised),
    [getConfigPath] is fulfilled with the directory's path after two
    [fs.access] calls and nothing else: the disk is unchanged, no directory
    is created and no copy is started; calling it again gives the same path
    and again changes nothing. *)
Theorem getConfigPath_idempotent (w : world D) (dir : string) :
  fst (getConfigPath_configDir config os w) = Return dir ->
  fs_access (disk w) dir = None ->
  fs_access (disk w) (Path.join [dir; page_template_file]) = None ->
  exists w',
    getConfigPath config os w = (Return (Fulfilled (VString dir)), w')
    /\ disk w' = disk w
    /\ inflight w' = inflight w
    /\ fs_calls w' = fs_calls w ++ [EvAccess dir; EvAccess (Path.join [dir; page_template_file])]
    /\ exists w'',
        getConfigPath config os w' = (Return (Fulfilled (VString dir)), w'')
        /\ disk w'' = disk w
        /\ inflight w'' = inflight w.
Proof.
  intros Hfst Hacc Htpl.
  destruct (getConfigPath_configDir config os w) as [c w1] eqn:Hdir.
  simpl in Hfst. subst c.
  destruct (getConfigPath_configDir_world config os _ _ _ Hdir) as (_ & _ & Hc).
  eexists. split; [apply (getConfigPath_present config os _ _ _ Hdir Hacc Htpl)|].
  repeat split.
  - unfold fs_calls in *. simpl. rewrite List.filter_app, Hc. reflexivity.
  - set (w' := World _ _ _).
    destruct (getConfigPath_configDir config os w') as [c w1'] eqn:Hdir'.
    pose proof (getConfigPath_configDir_indep config os w w') as Hi.
    rewrite Hdir, Hdir' in Hi. simpl in Hi. subst c.
    eexists. split; [apply (getConfigPath_present config os _ _ _ Hdir'); assumption|].
    split; reflexivity.
Qed.

(** C6.  With the [extDir] setting unset or empty and [getBasePath] returning
    /home/u/Journal, the directory [getConfigPath] works on is
    /home/u/Journal/.vscode: that is the path it checks, the only value it
    is fulfilled with, and the value it is fulfilled with whenever the
    extension is registered. *)
Theorem getConfigPath_default_directory (w : world D) :
  config !! "extDir" = None \/ config !! "extDir" = Some (VString "") ->
  fst (getBasePath config os w) = Return "/home/u/Journal" ->
  fst (getConfigPath_configDir config os w) = Return "/home/u/Journal/.vscode"
  /\ (forall v, fst (getConfigPath config os w) = Return (Fulfilled v) ->
                v = VString "/home/u/Journal/.vscode")
  /\ (forall p, extensions os !! extension_id = Some p ->
                fst (getConfigPath config os w)
                = Return (Fulfilled (VString "/home/u/Journal/.vscode"))).
Proof.
  intros Hext Hbase.
  assert (Hdir : fst (getConfigPath_configDir config os w) = Return "/home/u/Journal/.vscode").
  { pose proof (getBasePath_indep config os w (log (EvConfigGet "extDir") w)) as Hi.
    rewrite Hbase in Hi.
    js_step. fold (log (EvConfigGet "extDir") w).
    assert (Hv : config_lookup config "extDir" = VUndefined
                 \/ config_lookup config "extDir" = VString "").
    { unfold config_lookup. destruct Hext as [-> | ->]; auto. }
    destruct Hv as [-> | ->]; simpl;
      destruct (getBasePath config os (log (EvConfigGet "extDir") w)) as [[b|e] w2];
      simpl in Hi; inversion Hi; reflexivity. }
  destruct (getConfigPath_configDir config os w) as [c w1] eqn:Hrun. simpl in Hdir. subst c.
  pose proof (getConfigPath_outcome config os _ _ _ Hrun) as Hout.
  split; [reflexivity|]. split.
  - intros v Hv. rewrite Hout in Hv.
    destruct (_ && _); inversion Hv; reflexivity.
  - intros p Hp. rewrite Hout, Hp.
    rewrite bool_decide_eq_false_2 by discriminate. rewrite andb_false_r. reflexivity.
Qed.

End Initializer.

(** ** The settings accessors *)

Lemma substring_all (s : string) : String.substring 0 (String.length s) s = s.
Proof. induction s as [|c s IH]; simpl; [reflexivity | now rewrite IH]. Qed.

Lemma substring_1_cons (c : ascii) (rest : string) : JS.substring_1 (String c rest) = rest.
Proof.
  unfold JS.substring_1. simpl. rewrite Nat.sub_0_r. apply substring_all.
Qed.

Section Accessors.

Context {D : Type} `{FileSystem D}.
Variable config : gmap string value.
Variable os : host.

Lemma config_lookup_set (key : string) (v : value) :
  config !! key = Some v -> config_lookup config key = v.
Proof. unfold config_lookup. now intros ->. Qed.

Lemma config_lookup_unset (key : string) :
  config !! key = None -> config_lookup config key = VUndefined.
Proof. unfold config_lookup. now intros ->. Qed.

Ltac accessor_step :=
  cbv [getLocale getFileExtension getBasePath isDevEnabled getMemoTemplate getNotesTemplate
       getTaskTemplate getTodoTemplate config_get bind emit ret lift throw log].

(** C7.  For a stored [ext] value [s], [getFileExtension] removes one leading
    dot, and only one, and returns [md] when nothing is left: a value
    [.rest] gives [rest] (or [md] when [rest] is empty), a value without a
    leading dot is returned as it is (or [md] when it is empty).  So
    [.markdown] gives [markdown], [md] gives [md] and the empty string gives
    [md]. *)
Theorem getFileExtension_strips_one_dot (w : world D) (s : string) :
  config !! "ext" = Some (VString s) ->
  (forall rest, s = String "." rest ->
     fst (getFileExtension config w)
     = Return (VString (if String.eqb rest "" then "md" else rest)))
  /\ (String.prefix "." s = false ->
      fst (getFileExtension config w)
      = Return (VString (if String.eqb s "" then "md" else s))).
Proof.
  intros Hs. apply config_lookup_set in Hs. split.
  - intros rest ->. accessor_step. rewrite Hs. simpl.
    destruct rest as [|c rest]; [reflexivity|].
    rewrite substring_1_cons. reflexivity.
  - intros Hp. accessor_step. rewrite Hs. simpl. rewrite Hp. simpl.
    destruct (String.eqb s ""); reflexivity.
Qed.

(** C8, as the code has it.  A setting stored as the empty string gives the
    documented default: [getLocale] returns [en-US], [getFileExtension]
    returns [md], [getBasePath] returns the [Journal] directory of the home
    directory; [isDevEnabled] returns false when [dev] is unset, false or
    empty.  When [locale], [ext] or [base] is unset (the store answers
    undefined) the accessor throws a TypeError instead of returning a
    default. *)
Theorem accessor_defaults_on_empty_string (w : world D) :
  (config !! "locale" = Some (VString "") ->
   fst (getLocale config w) = Return (VString "en-US"))
  /\ (config !! "ext" = Some (VString "") ->
      fst (getFileExtension config w) = Return (VString "md"))
  /\ (config !! "base" = Some (VString "") ->
      forall segs, Forall (fun seg => Path.plain seg = true) segs -> segs <> [] ->
                   homedir os = Path.absolute_of segs ->
                   fst (getBasePath config os w) = Return (homedir os +:+ "/Journal"))
  /\ (config !! "dev" = None \/ config !! "dev" = Some (VBool false)
      \/ config !! "dev" = Some (VString "") ->
      fst (isDevEnabled config w) = Return (VBool false))
  /\ (config !! "locale" = None ->
      fst (getLocale config w)
      = Throw (JS.TypeError "Cannot read property 'length' of undefined"))
  /\ (config !! "ext" = None ->
      fst (getFileExtension config w)
      = Throw (JS.TypeError "Cannot read property 'startsWith' of undefined"))
  /\ (config !! "base" = None ->
      fst (getBasePath config os w)
      = Throw (JS.TypeError "Cannot read property 'length' of undefined")).
Proof.
  repeat split.
  - intros Hs. apply config_lookup_set in Hs. accessor_step. now rewrite Hs.
  - intros Hs. apply config_lookup_set in Hs. accessor_step. now rewrite Hs.
  - intros Hs segs Hsegs Hne Hhome. apply config_lookup_set in Hs.
    accessor_step. rewrite Hs. simpl. rewrite Hhome.
    rewrite PathFacts.resolve_child by (assumption || reflexivity).
    now rewrite PathFacts.absolute_of_child.
  - intros Hs. accessor_step.
    destruct Hs as [Hs | [Hs | Hs]];
      [apply config_lookup_unset in Hs | apply config_lookup_set in Hs ..];
      now rewrite Hs.
  - intros Hs. apply config_lookup_unset in Hs. accessor_step. now rewrite Hs.
  - intros Hs. apply config_lookup_unset in Hs. accessor_step. now rewrite Hs.
  - intros Hs. apply config_lookup_unset in Hs. accessor_step. now rewrite Hs.
Qed.

(** C9, as the code has it.  [getNotesTemplate], [getTaskTemplate] and
    [getTodoTemplate] each return a TemplateInfo whose two fields are the
    values stored under their two [tpl-] keys, and [getMemoTemplate] returns
    the value stored under [tpl-memo] itself, not a TemplateInfo; all four
    only read the settings: the disk and the started copies are as before
    and the calls made are those reads. *)
Theorem template_accessors_read_settings_only (w : world D) :
  getNotesTemplate config w
  = (Return (VTemplateInfo (config_lookup config "tpl-files")
                           (config_lookup config "tpl-files-after")),
     World (disk w) (inflight w)
           (trace w ++ [EvConfigGet "tpl-files"; EvConfigGet "tpl-files-after"]))
  /\ getTaskTemplate config w
     = (Return (VTemplateInfo (config_lookup config "tpl-task")
                              (config_lookup config "tpl-task-after")),
        World (disk w) (inflight w)
              (trace w ++ [EvConfigGet "tpl-task"; EvConfigGet "tpl-task-after"]))
  /\ getTodoTemplate config w
     = (Return (VTemplateInfo (config_lookup config "tpl-todo")
                              (config_lookup config "tpl-todo-after")),
        World (disk w) (inflight w)
              (trace w ++ [EvConfigGet "tpl-todo"; EvConfigGet "tpl-todo-after"]))
  /\ getMemoTemplate config w
     = (Return (config_lookup config "tpl-memo"),
        World (disk w) (inflight w) (trace w ++ [EvConfigGet "tpl-memo"])).
Proof.
  repeat split; accessor_step; simpl; rewrite <- ?app_assoc; reflexivity.
Qed.

End Accessors.

(** ** The claims on the sample installations *)

Module OnDisk.
Import Scenario.

(** C2 (the code does not do this).  With a bundle that lacks settings.json
    and an empty configuration directory, [initializeConfigDir] is not
    rejected and names no file: it is fulfilled with null while the four
    copies are still in flight.  Once they have run their course the three
    files that could be copied are in the directory, with the bundle's
    content. *)
Theorem initializeConfigDir_missing_source_not_reported :
  bundle_incomplete !! "/ext/res/settings.json" = None
  /\ fst (initializeConfigDir os config_dir (start bundle_incomplete))
     = Return (Fulfilled VNull)
  /\ inflight (snd (initializeConfigDir os config_dir (start bundle_incomplete)))
     = seed_copies "/ext/res" config_dir
  /\ disk (drain (snd (initializeConfigDir os config_dir (start bundle_incomplete))))
     !! "/home/u/Journal/.vscode/journal.page-template.md" = Some (File "# ${date}")
  /\ disk (drain (snd (initializeConfigDir os config_dir (start bundle_incomplete))))
     !! "/home/u/Journal/.vscode/journal.note-template.md" = Some (File "# ${input}")
  /\ disk (drain (snd (initializeConfigDir os config_dir (start bundle_incomplete))))
     !! "/home/u/Journal/.vscode/journal.inline-templates.json" = Some (File "[]").
Proof. repeat split; vm_compute; reflexivity. Qed.

(** C3 (the code does not do this).  On a machine where [~/Journal] does not
    exist, [fs.mkdir] of [~/Journal/.vscode] fails and [getConfigPath] is
    fulfilled with that path all the same: the directory exists neither when
    the promise settles nor after the copies have run their course, and the
    page template is not in it.  Where [~/Journal] exists, the directory is
    created and the promise is fulfilled before any of the four files is
    there: the copies have only been started. *)
Theorem getConfigPath_fulfilled_without_directory :
  (fst (getConfigPath settings os (start fresh)) = Return (Fulfilled (VString config_dir))
   /\ Disk.exists_at (disk (snd (getConfigPath settings os (start fresh)))) config_dir = false
   /\ Disk.exists_at (disk (drain (snd (getConfigPath settings os (start fresh))))) config_dir
      = false
   /\ Disk.exists_at (disk (drain (snd (getConfigPath settings os (start fresh)))))
                     (Path.join [config_dir; page_template_file]) = false)
  /\ (fst (getConfigPath settings os (start with_journal))
      = Return (Fulfilled (VString config_dir))
      /\ Disk.exists_at (disk (snd (getConfigPath settings os (start with_journal)))) config_dir
         = true
      /\ forallb (fun file =>
                    negb (Disk.exists_at (disk (snd (getConfigPath settings os
                                                                   (start with_journal))))
                                         (Path.join [config_dir; file])))
                 default_files = true).
Proof. repeat split; vm_compute; reflexivity. Qed.

(** The failing input of C1: a new machine. *)
Lemma getConfigPath_mkdir_failure_witness :
  exists w',
    getConfigPath settings os (start fresh) = (Return (Fulfilled (VString config_dir)), w')
    /\ disk w' = disk (start fresh)
    /\ inflight w'
       = inflight (start fresh) ++ seed_copies (Path.resolve (cwd os) ["/ext"; "res"]) config_dir
    /\ fs_calls w'
       = fs_calls (start fresh) ++ [EvAccess config_dir; EvMkdir config_dir]
         ++ seed_calls (Path.resolve (cwd os) ["/ext"; "res"]) config_dir.
Proof.
  apply (getConfigPath_mkdir_failure_not_propagated settings os (start fresh)
           config_dir "/ext"
           (Disk.ENOENT "access" config_dir) (Disk.ENOENT "mkdir" config_dir));
    vm_compute; reflexivity.
Defined.

Lemma getConfigPath_idempotent_witness :
  exists w',
    getConfigPath settings os after_first_call
    = (Return (Fulfilled (VString config_dir)), w')
    /\ disk w' = disk after_first_call
    /\ inflight w' = inflight after_first_call
    /\ fs_calls w'
       = fs_calls after_first_call
         ++ [EvAccess config_dir; EvAccess (Path.join [config_dir; page_template_file])]
    /\ exists w'',
        getConfigPath settings os w' = (Return (Fulfilled (VString config_dir)), w'')
        /\ disk w'' = disk after_first_call
        /\ inflight w'' = inflight after_first_call.
Proof.
  apply (getConfigPath_idempotent settings os after_first_call config_dir);
    vm_compute; reflexivity.
Defined.

(** The first call did initialise the directory: all four files are there. *)
Example first_call_initialises :
  fst (getConfigPath settings os (start with_journal)) = Return (Fulfilled (VString config_dir))
  /\ Disk.exists_at (disk after_first_call) config_dir = true
  /\ forallb (fun file => Disk.exists_at (disk after_first_call) (Path.join [config_dir; file]))
             default_files = true.
Proof. repeat split; vm_compute; reflexivity. Qed.

(** After the copies of that run, the three files the user had edited hold
    the bundle's content again. *)
Example reseeding_overwrites_the_other_files :
  let after := disk (drain (snd (getConfigPath settings os (start page_template_deleted)))) in
  page_template_deleted !! "/home/u/Journal/.vscode/settings.json" = Some (File "{ mine }")
  /\ after !! "/home/u/Journal/.vscode/settings.json" = Some (File "{}")
  /\ after !! "/home/u/Journal/.vscode/journal.page-template.md" = Some (File "# ${date}")
  /\ after !! "/home/u/Journal/.vscode/journal.note-template.md" = Some (File "# ${input}")
  /\ after !! "/home/u/Journal/.vscode/journal.inline-templates.json" = Some (File "[]").
Proof. repeat split; vm_compute; reflexivity. Qed.

Lemma getConfigPath_default_directory_witness :
  fst (getConfigPath_configDir settings os (start fresh)) = Return "/home/u/Journal/.vscode"
  /\ (forall v, fst (getConfigPath settings os (start fresh)) = Return (Fulfilled v) ->
                v = VString "/home/u/Journal/.vscode")
  /\ (forall p, extensions os !! extension_id = Some p ->
                fst (getConfigPath settings os (start fresh))
                = Return (Fulfilled (VString "/home/u/Journal/.vscode"))).
Proof.
  apply (getConfigPath_default_directory settings os (start fresh)).
  - left. vm_compute. reflexivity.
  - vm_compute. reflexivity.
Defined.

Lemma getFileExtension_strips_one_dot_witness :
  fst (getFileExtension {[ "ext" := VString ".markdown" ]} (start fresh))
  = Return (VString "markdown")
  /\ fst (getFileExtension {[ "ext" := VString "md" ]} (start fresh)) = Return (VString "md")
  /\ fst (getFileExtension {[ "ext" := VString "" ]} (start fresh)) = Return (VString "md").
Proof.
  split; [|split].
  - apply (proj1 (getFileExtension_strips_one_dot {[ "ext" := VString ".markdown" ]}
                    (start fresh) ".markdown" (lookup_singleton_eq _ _)) "markdown" eq_refl).
  - apply (proj2 (getFileExtension_strips_one_dot {[ "ext" := VString "md" ]}
                    (start fresh) "md" (lookup_singleton_eq _ _)) eq_refl).
  - apply (proj2 (getFileExtension_strips_one_dot {[ "ext" := VString "" ]}
                    (start fresh) "" (lookup_singleton_eq _ _)) eq_refl).
Defined.

(** Two dots: one is removed. *)
Example getFileExtension_two_dots :
  fst (getFileExtension {[ "ext" := VString "..md" ]} (start fresh)) = Return (VString ".md").
Proof. reflexivity. Qed.

(** C8 as stated fails where a setting is unset: [getLocale], [getFileExtension]
    and [getBasePath] throw instead of returning their defaults. *)
Lemma accessors_throw_on_unset_setting :
  config_lookup ∅ "locale" = VUndefined
  /\ fst (getLocale ∅ (start fresh))
     = Throw (JS.TypeError "Cannot read property 'length' of undefined")
  /\ fst (getLocale ∅ (start fresh)) <> Return (VString "en-US")
  /\ fst (getFileExtension ∅ (start fresh)) <> Return (VString "md")
  /\ fst (getBasePath ∅ os (start fresh)) <> Return "/home/u/Journal".
Proof. repeat split; try reflexivity; intros Hr; vm_compute in Hr; discriminate. Qed.

Lemma accessor_defaults_witness :
  fst (getLocale settings (start fresh)) = Return (VString "en-US")
  /\ fst (getFileExtension settings (start fresh)) = Return (VString "md")
  /\ fst (getBasePath settings os (start fresh)) = Return "/home/u/Journal"
  /\ fst (isDevEnabled settings (start fresh)) = Return (VBool false).
Proof.
  pose proof (accessor_defaults_on_empty_string settings os (start fresh))
    as (Hlocale & Hext & Hbase & Hdev & _).
  split; [apply Hlocale; vm_compute; reflexivity|].
  split; [apply Hext; vm_compute; reflexivity|].
  split; [|apply Hdev; left; vm_compute; reflexivity].
  apply (Hbase ltac:(vm_compute; reflexivity) ["home"; "u"]).
  - repeat constructor.
  - discriminate.
  - reflexivity.
Defined.

(** C9 as stated fails for [getMemoTemplate]: it returns the string stored
    under [tpl-memo], which is not a TemplateInfo. *)
Lemma getMemoTemplate_returns_a_string :
  fst (getMemoTemplate settings (start fresh)) = Return (VString "- MEMO: ${input}")
  /\ isTemplateInfo (VString "- MEMO: ${input}") = false.
Proof. split; reflexivity. Qed.

End OnDisk.

(** ** The copies on the concrete file system *)

Module DiskFacts.
Import Path PathFacts.

Lemma split_concat_plain (segs : list string) :
  Forall (fun seg => plain seg = true) segs -> segs <> [] ->
  split (String.concat "/" segs) = segs.
Proof.
  intros Hsegs Hne.
  destruct (exists_last Hne) as (front & name & ->).
  apply Forall_app in Hsegs as [Hfront Hname]. inversion Hname as [|? ? Hn _]; subst.
  destruct front as [|seg front].
  - simpl. apply split_no_slash. now apply plain_no_slash.
  - rewrite concat_snoc by discriminate.
    rewrite split_concat by assumption.
    rewrite split_no_slash by now apply plain_no_slash. reflexivity.
Qed.

Lemma split_absolute_of (segs : list string) :
  Forall (fun seg => plain seg = true) segs -> segs <> [] ->
  split (absolute_of segs) = "" :: segs.
Proof.
  intros Hsegs Hne. unfold absolute_of. rewrite append_cons, append_empty.
  cbn [split is_slash Ascii.eqb Bool.eqb]. now rewrite split_concat_plain.
Qed.

Lemma filter_plain (segs : list string) :
  Forall (fun seg => plain seg = true) segs ->
  List.filter (fun a => negb (String.eqb a "")) segs = segs.
Proof.
  induction 1 as [|seg segs Hseg _ IH]; [reflexivity|].
  simpl. rewrite (plain_nonempty _ Hseg), IH. reflexivity.
Qed.

(** The parent of a child is the parent. *)
Lemma dirname_child (segs : list string) (name : string) :
  Forall (fun seg => plain seg = true) segs -> plain name = true ->
  dirname (absolute_of (segs ++ [name])) = absolute_of segs.
Proof.
  intros Hsegs Hname. unfold dirname.
  assert (Hall : Forall (fun seg => plain seg = true) (segs ++ [name])).
  { apply Forall_app. split; [assumption | now constructor]. }
  rewrite split_absolute_of by (assumption || now destruct segs).
  cbn [List.filter String.eqb negb]. rewrite filter_plain by assumption.
  rewrite removelast_last. reflexivity.
Qed.

Lemma absolute_of_inj (l1 l2 : list string) :
  Forall (fun seg => plain seg = true) l1 -> Forall (fun seg => plain seg = true) l2 ->
  absolute_of l1 = absolute_of l2 -> l1 = l2.
Proof.
  intros H1 H2 Heq.
  assert (Hs : split (absolute_of l1) = split (absolute_of l2)) by now rewrite Heq.
  destruct l1 as [|a l1], l2 as [|b l2]; [reflexivity| | |].
  - rewrite (split_absolute_of (b :: l2)) in Hs by (assumption || discriminate).
    inversion H2 as [|? ? Hb _]; subst. apply plain_nonempty in Hb.
    cbn in Hs. injection Hs as Hs _. subst b. discriminate.
  - rewrite (split_absolute_of (a :: l1)) in Hs by (assumption || discriminate).
    inversion H1 as [|? ? Ha _]; subst. apply plain_nonempty in Ha.
    cbn in Hs. injection Hs as Hs _. subst a. discriminate.
  - rewrite !split_absolute_of in Hs by (assumption || discriminate). congruence.
Qed.

Lemma child_inj (l1 l2 : list string) (f g : string) :
  Forall (fun seg => plain seg = true) l1 -> Forall (fun seg => plain seg = true) l2 ->
  plain f = true -> plain g = true ->
  absolute_of (l1 ++ [f]) = absolute_of (l2 ++ [g]) -> l1 = l2 /\ f = g.
Proof.
  intros H1 H2 Hf Hg Heq. apply absolute_of_inj in Heq.
  - now apply app_inj_tail in Heq.
  - apply Forall_app; split; [assumption | now constructor].
  - apply Forall_app; split; [assumption | now constructor].
Qed.

Lemma child_not_parent (l : list string) (f : string) :
  Forall (fun seg => plain seg = true) l -> plain f = true ->
  absolute_of (l ++ [f]) <> absolute_of l.
Proof.
  intros Hl Hf Heq. apply absolute_of_inj in Heq; [| |assumption].
  - apply (f_equal (@List.length string)) in Heq. rewrite length_app in Heq. simpl in Heq. lia.
  - apply Forall_app; split; [assumption | now constructor].
Qed.

Lemma default_files_plain : Forall (fun f => plain f = true) default_files.
Proof. repeat constructor. Qed.

Lemma default_files_distinct : NoDup default_files.
Proof. apply (bool_decide_unpack _). vm_compute. exact I. Qed.

Lemma seed_copies_children (src_segs segs : list string) :
  Forall (fun seg => plain seg = true) src_segs -> Forall (fun seg => plain seg = true) segs ->
  seed_copies (absolute_of src_segs) (absolute_of segs) = copies_of src_segs segs default_files.
Proof.
  intros Hsrc Hsegs. unfold seed_copies, copies_of, default_files. cbn [List.map].
  rewrite !join_child by (assumption || reflexivity). reflexivity.
Qed.

Section Seeding.

(** The configuration directory and the extension's [res] directory, as
    normalised absolute paths, and the content of the bundled files. *)
Variables (segs src_segs : list string) (content : string -> string).
Hypothesis segs_plain : Forall (fun seg => plain seg = true) segs.
Hypothesis src_segs_plain : Forall (fun seg => plain seg = true) src_segs.
Hypothesis distinct : segs <> src_segs.

Lemma copies_run (files : list string) (d : gmap string node) :
  NoDup files -> Forall (fun f => plain f = true) files ->
  d !! absolute_of segs = Some Dir ->
  (forall f, f ∈ files -> d !! absolute_of (src_segs ++ [f]) = Some (File (content f))) ->
  (forall f, f ∈ files -> d !! absolute_of (segs ++ [f]) <> Some Dir) ->
  (forall f, f ∈ files ->
     run_copies (copies_of src_segs segs files) d !! absolute_of (segs ++ [f]) = Some (File (content f)))
  /\ (forall k, (forall f, f ∈ files -> k <> absolute_of (segs ++ [f])) ->
                run_copies (copies_of src_segs segs files) d !! k = d !! k).
Proof.
  intros Hnd Hplain. revert d.
  induction files as [|f files IH]; intros d Hdir Hsrc Hdst.
  - split; [intros f Hf; inversion Hf | reflexivity].
  - apply NoDup_cons in Hnd as [Hnotin Hnd].
    inversion Hplain as [|? ? Hf Hfiles]; subst.
    cbn [copies_of List.map run_copies fold_left fs_pipe Disk.disk_fs].
    fold (copies_of src_segs segs files). 
    set (d1 := Disk.pipe d (absolute_of (src_segs ++ [f])) (absolute_of (segs ++ [f]))).
    fold (run_copies (copies_of src_segs segs files) d1).
    assert (Hd1 : d1 = <[absolute_of (segs ++ [f]) := File (content f)]> d).
    { unfold d1, Disk.pipe. rewrite dirname_child, Hdir by assumption.
      rewrite (Hsrc f) by (left).
      specialize (Hdst f ltac:(left)).
      destruct (d !! absolute_of (segs ++ [f])) as [[|c]|]; [contradiction|reflexivity..]. }
    assert (Hother : forall k, k <> absolute_of (segs ++ [f]) -> d1 !! k = d !! k).
    { intros k Hk. rewrite Hd1. now apply lookup_insert_ne. }
    destruct (IH Hnd Hfiles d1) as [IHfiles IHrest].
    + rewrite Hother; [assumption|]. intros Heq. symmetry in Heq.
      now apply child_not_parent in Heq.
    + intros g Hg. rewrite Hother; [apply Hsrc; now right|].
      intros Heq. apply child_inj in Heq as [Heq _]; try assumption; [congruence|].
      now apply (proj1 (Forall_forall _ _) Hfiles).
    + intros g Hg. rewrite Hother; [apply Hdst; now right|].
      intros Heq. apply child_inj in Heq as [_ ->]; try assumption; [contradiction|].
      now apply (proj1 (Forall_forall _ _) Hfiles).
    + split.
      * intros g Hg. apply elem_of_cons in Hg as [-> | Hg]; [|now apply IHfiles].
        rewrite IHrest.
        -- rewrite Hd1. apply lookup_insert_eq.
        -- intros g Hg Heq. apply child_inj in Heq as [_ ->]; try assumption; [contradiction|].
           now apply (proj1 (Forall_forall _ _) Hfiles).
      * intros k Hk. rewrite IHrest.
        -- apply Hother, Hk. left.
        -- intros g Hg. apply Hk. now right.
Qed.


(** Once the four copies have run their course on a disk that has the
    configuration directory and a complete bundle, the four files are in the
    directory with the bundle's content, whatever was there before, and
    nothing else has changed. *)
Lemma seeding_completes (d : gmap string node) :
  d !! absolute_of segs = Some Dir ->
  (forall f, f ∈ default_files ->
     d !! absolute_of (src_segs ++ [f]) = Some (File (content f))) ->
  (forall f, f ∈ default_files -> d !! absolute_of (segs ++ [f]) <> Some Dir) ->
  (forall f, f ∈ default_files ->
     run_copies (seed_copies (absolute_of src_segs) (absolute_of segs)) d
     !! absolute_of (segs ++ [f]) = Some (File (content f)))
  /\ (forall k, (forall f, f ∈ default_files -> k <> absolute_of (segs ++ [f])) ->
       run_copies (seed_copies (absolute_of src_segs) (absolute_of segs)) d !! k = d !! k).
Proof.
  intros Hdir Hsrc Hdst. rewrite seed_copies_children by assumption.
  apply (copies_run default_files d default_files_distinct default_files_plain Hdir Hsrc Hdst).
Qed.

End Seeding.

Section Initialised.

Variables (segs src_segs : list string) (content : string -> string).
Hypothesis segs_plain : Forall (fun seg => plain seg = true) segs.
Hypothesis src_segs_plain : Forall (fun seg => plain seg = true) src_segs.

Variable config : gmap string value.
Variable os : host.
Variable p : string.
Hypothesis extension_installed : extensions os !! extension_id = Some p.
Hypothesis bundle_at : Path.resolve (cwd os) [p; "res"] = absolute_of src_segs.

(** The directory is there, its page template is not: after the call and
    its copies, all four files hold the bundle's content. *)
Lemma getConfigPath_restores_all_four (w : world (gmap string node)) :
  fst (getConfigPath_configDir config os w) = Return (absolute_of segs) ->
  inflight w = [] ->
  disk w !! absolute_of segs = Some Dir ->
  disk w !! absolute_of (segs ++ [page_template_file]) = None ->
  (forall f, f ∈ default_files ->
     disk w !! absolute_of (src_segs ++ [f]) = Some (File (content f))) ->
  (forall f, f ∈ default_files -> disk w !! absolute_of (segs ++ [f]) <> Some Dir) ->
  fst (getConfigPath config os w) = Return (Fulfilled (VString (absolute_of segs)))
  /\ forall f, f ∈ default_files ->
       disk (drain (snd (getConfigPath config os w))) !! absolute_of (segs ++ [f])
       = Some (File (content f)).
Proof.
  intros Hfst Hin Hdir Htpl Hsrc Hdst.
  destruct (getConfigPath_configDir config os w) as [c w1] eqn:Hrun.
  simpl in Hfst. subst c.
  rewrite (getConfigPath_reseed config os w w1 (absolute_of segs) p
             (Disk.ENOENT "access" (Path.join [absolute_of segs; page_template_file])) Hrun).
  - split; [reflexivity|]. cbn [snd drain disk inflight]. rewrite Hin, bundle_at. cbn [app].
    apply seeding_completes; try assumption.
    intros ->. specialize (Hsrc page_template_file). rewrite Htpl in Hsrc.
    discriminate Hsrc. unfold page_template_file, default_files. rewrite !elem_of_cons. auto.
  - cbn [fs_access Disk.disk_fs]. unfold Disk.access. now rewrite Hdir.
  - cbn [fs_access Disk.disk_fs]. unfold Disk.access.
    rewrite join_child by (assumption || reflexivity). now rewrite Htpl.
  - assumption.
Qed.

(** The directory is not there and its parent is: the call creates it, and
    after its copies all four files hold the bundle's content. *)
Lemma getConfigPath_creates_and_seeds (w : world (gmap string node)) :
  fst (getConfigPath_configDir config os w) = Return (absolute_of segs) ->
  inflight w = [] ->
  disk w !! absolute_of segs = None ->
  disk w !! Path.dirname (absolute_of segs) = Some Dir ->
  (forall f, f ∈ default_files -> disk w !! absolute_of (segs ++ [f]) = None) ->
  (forall f, f ∈ default_files ->
     disk w !! absolute_of (src_segs ++ [f]) = Some (File (content f))) ->
  fst (getConfigPath config os w) = Return (Fulfilled (VString (absolute_of segs)))
  /\ disk (drain (snd (getConfigPath config os w))) !! absolute_of segs = Some Dir
  /\ forall f, f ∈ default_files ->
       disk (drain (snd (getConfigPath config os w))) !! absolute_of (segs ++ [f])
       = Some (File (content f)).
Proof.
  intros Hfst Hin Hdir Hparent Hnone Hsrc.
  destruct (getConfigPath_configDir config os w) as [c w1] eqn:Hrun.
  simpl in Hfst. subst c.
  set (d' := <[absolute_of segs := Dir]> (disk w)).
  assert (Hmk : fs_mkdir (disk w) (absolute_of segs) = inr d').
  { cbn [fs_mkdir Disk.disk_fs]. unfold Disk.mkdir. now rewrite Hdir, Hparent. }
  assert (Hplain : forall f, f ∈ default_files -> plain f = true)
    by apply (proj1 (Forall_forall _ _) default_files_plain).
  assert (Hdst : forall f, f ∈ default_files -> d' !! absolute_of (segs ++ [f]) = None).
  { intros f Hf. unfold d'. rewrite lookup_insert_ne; [now apply Hnone|].
    intros Heq. symmetry in Heq. apply child_not_parent in Heq; auto. }
  assert (Hsrc' : forall f, f ∈ default_files ->
                    d' !! absolute_of (src_segs ++ [f]) = Some (File (content f))).
  { intros f Hf. unfold d'. rewrite lookup_insert_ne; [now apply Hsrc|].
    intros Heq. specialize (Hsrc f Hf). rewrite <- Heq in Hsrc. congruence. }
  rewrite (getConfigPath_created config os w w1 (absolute_of segs) p
             (Disk.ENOENT "access" (absolute_of segs))
             (Disk.ENOENT "access" (Path.join [absolute_of segs; page_template_file]))
             d' Hrun).
  - split; [reflexivity|]. cbn [snd drain disk inflight]. rewrite Hin, bundle_at. cbn [app].
    destruct (seeding_completes segs src_segs content segs_plain src_segs_plain) with (d := d')
      as [Hfiles Hrest].
    + intros ->. specialize (Hsrc page_template_file). rewrite Hnone in Hsrc.
      * discriminate Hsrc. unfold page_template_file, default_files. rewrite !elem_of_cons. auto.
      * unfold page_template_file, default_files. rewrite !elem_of_cons. auto.
    + apply lookup_insert_eq.
    + assumption.
    + intros f Hf. rewrite Hdst by assumption. discriminate.
    + split; [|assumption].
      rewrite Hrest; [apply lookup_insert_eq|].
      intros f Hf Heq. symmetry in Heq. apply child_not_parent in Heq; auto.
  - cbn [fs_access Disk.disk_fs]. unfold Disk.access. now rewrite Hdir.
  - assumption.
  - cbn [fs_access Disk.disk_fs]. unfold Disk.access.
    rewrite join_child by (assumption || reflexivity).
    rewrite Hdst; [reflexivity|]. unfold page_template_file, default_files.
    rewrite !elem_of_cons. auto.
  - assumption.
Qed.

End Initialised.
End DiskFacts.

(** The sample machine with [~/Journal]: the first call creates the
    directory and, once its copies have run, the four files are there. *)
Example creates_and_seeds_on_sample :
  fst (getConfigPath Scenario.settings Scenario.os (Scenario.start Scenario.with_journal))
  = Return (Fulfilled (VString Scenario.config_dir))
  /\ disk Scenario.after_first_call !! Scenario.config_dir = Some Dir
  /\ forall f, f ∈ default_files ->
       disk Scenario.after_first_call !! (Scenario.config_dir +:+ "/" +:+ f)
       = Some (File (Scenario.bundled f)).
Proof.
  assert (Hcases : forall (P : string -> Prop),
             P "settings.json" -> P "journal.page-template.md" ->
             P "journal.note-template.md" -> P "journal.inline-templates.json" ->
             forall f, f ∈ default_files -> P f).
  { intros P H1 H2 H3 H4 f Hf. unfold default_files in Hf.
    rewrite !elem_of_cons, elem_of_nil in Hf.
    destruct Hf as [-> | [-> | [-> | [-> | []]]]]; assumption. }
  destruct (DiskFacts.getConfigPath_creates_and_seeds
              ["home"; "u"; "Journal"; ".vscode"] ["ext"; "res"] Scenario.bundled
              ltac:(repeat constructor) ltac:(repeat constructor)
              Scenario.settings Scenario.os "/ext" eq_refl eq_refl
              (Scenario.start Scenario.with_journal))
    as (Hres & Hdir & Hfiles).
  - vm_compute; reflexivity.
  - reflexivity.
  - vm_compute; reflexivity.
  - vm_compute; reflexivity.
  - apply Hcases; vm_compute; reflexivity.
  - apply Hcases; vm_compute; reflexivity.
  - split; [exact Hres|]. split; [exact Hdir|].
    intros f Hf. rewrite <- (Hfiles f Hf). revert f Hf. apply Hcases; reflexivity.
Qed.

(** * Further properties *)

(** ** More facts about the [path] model *)

Module PathMore.
Import Path PathFacts.

Lemma resolve_loop_absolute (cwd : string) (rev_args : list string) (acc : string) :
  isAbsolute cwd = true -> snd (resolve_loop cwd rev_args acc) = true.
Proof.
  intros Hcwd. revert acc.
  induction rev_args as [|p before IH]; intros acc; simpl.
  - destruct cwd as [|c cwd]; [discriminate|]. simpl. exact Hcwd.
  - destruct (String.eqb p ""); [apply IH|].
    destruct (isAbsolute p); [reflexivity | apply IH].
Qed.

(** In a process whose working directory is absolute, [path.resolve]
    returns an absolute path. *)
Lemma resolve_absolute (cwd : string) (args : list string) :
  isAbsolute cwd = true -> isAbsolute (resolve cwd args) = true.
Proof.
  intros Hcwd. unfold resolve.
  pose proof (resolve_loop_absolute cwd (rev args) "" Hcwd) as Hl.
  destruct (resolve_loop cwd (rev args) "") as [p absolute]. simpl in Hl. subst absolute.
  reflexivity.
Qed.

Lemma fold_push_mixed (segs : list string) (stack : list string) :
  Forall (fun seg => seg = "" \/ plain seg = true) segs ->
  fold_left (push_segment false) segs stack
  = rev (List.filter (fun a => negb (String.eqb a "")) segs) ++ stack.
Proof.
  intros Hs. revert stack.
  induction Hs as [|seg segs [-> | Hseg] _ IH]; intros stack; [reflexivity| |].
  - simpl. apply IH.
  - simpl. rewrite push_plain by assumption. rewrite (plain_nonempty _ Hseg). simpl.
    rewrite IH, <- app_assoc. reflexivity.
Qed.

Lemma plain_mixed (segs : list string) :
  Forall (fun seg => plain seg = true) segs -> Forall (fun seg => seg = "" \/ plain seg = true) segs.
Proof. intros Hs. eapply Forall_impl; [exact Hs|]. intros seg Hseg. now right. Qed.

Lemma head_mixed (segs : list string) :
  Forall (fun seg => plain seg = true) segs ->
  Forall (fun seg => seg = "" \/ plain seg = true) match segs with [] => [""] | _ => segs end.
Proof.
  intros Hs. destruct segs; [repeat constructor; now left | now apply plain_mixed].
Qed.

Lemma head_filter (segs : list string) :
  Forall (fun seg => plain seg = true) segs ->
  List.filter (fun a => negb (String.eqb a "")) match segs with [] => [""] | _ => segs end
  = segs.
Proof.
  intros Hs. destruct segs as [|seg segs]; [reflexivity|].
  induction Hs as [|s l Hseg _ IH]; [reflexivity|].
  simpl. rewrite (plain_nonempty _ Hseg). simpl. now rewrite IH.
Qed.

Lemma split_absolute_prefix (segs : list string) (rest : string) :
  Forall (fun seg => plain seg = true) segs ->
  split (absolute_of segs +:+ "/" +:+ rest)
  = "" :: match segs with [] => [""] | _ => segs end ++ split rest.
Proof.
  intros Hsegs. unfold absolute_of.
  rewrite append_assoc, append_cons, append_empty.
  cbn [split is_slash Ascii.eqb Bool.eqb]. now rewrite split_concat.
Qed.

Lemma normalize_self (segs : list string) :
  Forall (fun seg => plain seg = true) segs ->
  normalizeString (absolute_of segs +:+ "/") false = String.concat "/" segs.
Proof.
  intros Hsegs. unfold normalizeString.
  change (absolute_of segs +:+ "/") with (absolute_of segs +:+ "/" +:+ "").
  rewrite split_absolute_prefix by assumption.
  cbn [split fold_left]. change (push_segment false [] "") with (@nil string).
  rewrite fold_push_mixed.
  - rewrite List.filter_app, head_filter by assumption. simpl.
    rewrite !app_nil_r, rev_involutive. reflexivity.
  - apply Forall_app. split; [now apply head_mixed | repeat constructor; now left].
Qed.

(** A normalised absolute path resolves to itself. *)
Lemma resolve_self (cwd : string) (segs : list string) :
  Forall (fun seg => plain seg = true) segs ->
  resolve cwd [absolute_of segs] = absolute_of segs.
Proof.
  intros Hsegs. unfold resolve. cbn [rev app resolve_loop].
  change (String.eqb (absolute_of segs) "") with false.
  change (isAbsolute (absolute_of segs)) with true.
  cbn [negb]. change (absolute_of segs +:+ "/" +:+ "") with (absolute_of segs +:+ "/").
  now rewrite normalize_self.
Qed.

Lemma concat_nonempty (segs : list string) :
  Forall (fun seg => plain seg = true) segs -> segs <> [] ->
  String.eqb (String.concat "/" segs) "" = false
  /\ isAbsolute (String.concat "/" segs) = false.
Proof.
  intros Hs Hne. destruct Hs as [|seg segs Hseg _]; [congruence|].
  pose proof (plain_nonempty _ Hseg) as He. apply plain_no_slash in Hseg.
  destruct seg as [|c seg]; [discriminate|].
  simpl in Hseg. apply andb_true_iff in Hseg as [Hc _]. apply negb_true_iff in Hc.
  destruct segs; simpl; rewrite ?append_cons; simpl; auto.
Qed.

(** A relative path of ordinary names resolves below the working directory. *)
Lemma resolve_relative (csegs rsegs : list string) :
  Forall (fun seg => plain seg = true) csegs ->
  Forall (fun seg => plain seg = true) rsegs -> rsegs <> [] ->
  resolve (absolute_of csegs) [String.concat "/" rsegs] = absolute_of (csegs ++ rsegs).
Proof.
  intros Hc Hr Hne. destruct (concat_nonempty rsegs Hr Hne) as [He Ha].
  unfold resolve. cbn [rev app resolve_loop]. rewrite He, Ha.
  change (String.eqb (absolute_of csegs) "") with false.
  change (isAbsolute (absolute_of csegs)) with true. cbn [negb].
  unfold normalizeString.
  rewrite split_absolute_prefix by assumption.
  rewrite split_concat by assumption.
  cbn [split fold_left]. change (push_segment false [] "") with (@nil string).
  rewrite fold_push_mixed.
  - rewrite !List.filter_app, !head_filter by assumption. simpl.
    rewrite !app_nil_r, rev_involutive. reflexivity.
  - apply Forall_app. split; [now apply head_mixed|].
    apply Forall_app. split; [now apply head_mixed | repeat constructor; now left].
Qed.

End PathMore.

(** ** More about [getConfigPath] and the path settings, on every file system *)

Lemma prefix_dot_cons (c : ascii) (s : string) :
  String.prefix "." (String c s) = Ascii.eqb "." c.
Proof.
  cbn [String.prefix]. destruct (ascii_dec "." c) as [<- | Hc]; [now destruct s|].
  symmetry. now apply Ascii.eqb_neq.
Qed.

Lemma prefix_dotdot_cons (c : ascii) (s : string) :
  String.prefix ".." (String c s) = Ascii.eqb "." c && String.prefix "." s.
Proof.
  cbn [String.prefix]. destruct (ascii_dec "." c) as [<- | Hc]; [reflexivity|].
  apply Ascii.eqb_neq in Hc. now rewrite Hc.
Qed.

Section MoreRuns.

Context {D : Type} `{FileSystem D}.
Variable config : gmap string value.
Variable os : host.

(** What a call leaves behind: the disk is as before or the one [fs.mkdir]
    of the directory gave, and the copies started are none or the four
    seed copies. *)
Lemma getConfigPath_effects (w w1 : world D) (dir : string) :
  getConfigPath_configDir config os w = (Return dir, w1) ->
  exists d' copies evs,
    snd (getConfigPath config os w) = World d' (inflight w ++ copies) (trace w1 ++ evs)
    /\ (d' = disk w \/ fs_mkdir (disk w) dir = inr d')
    /\ (copies = []
        \/ exists p, extensions os !! extension_id = Some p
                     /\ copies = seed_copies (Path.resolve (cwd os) [p; "res"]) dir).
Proof.
  intros Hdir.
  destruct (getConfigPath_configDir_world config os _ _ _ Hdir) as (Hd & Hi & _).
  unfold getConfigPath, bind at 1. rewrite Hdir.
  cbv [deferred_promise then_ catch_ checkIfAccessible Q_nfcall_mkdir
       bind emit ret log set_disk]; simpl.
  rewrite Hd, Hi.
  destruct (extensions os !! extension_id) as [p|] eqn:Hext;
    destruct (fs_access (disk w) dir); simpl;
    try (destruct (fs_mkdir (disk w) dir) as [e|d']; simpl);
    try (match goal with |- context [fs_access ?d ?q] => destruct (fs_access d q) end; simpl);
    rewrite ?(initializeConfigDir_run os _ _ _ Hext),
            ?(initializeConfigDir_no_extension os _ _ Hext); simpl;
    unfold log; simpl; rewrite <- ?app_assoc;
    first [ do 3 eexists; split; [reflexivity|]; split; [auto | right; eauto]; fail
          | eexists; exists []; eexists; rewrite app_nil_r;
            split; [reflexivity|]; split; auto ].
Qed.

(** X1.  With the extension registered, no answer of the file system makes
    [getConfigPath] reject or throw: it is fulfilled with the directory it
    computed, whether [fs.access] and [fs.mkdir] succeed or fail. *)
Theorem getConfigPath_never_rejects_when_registered (w : world D) (dir p : string) :
  fst (getConfigPath_configDir config os w) = Return dir ->
  extensions os !! extension_id = Some p ->
  fst (getConfigPath config os w) = Return (Fulfilled (VString dir)).
Proof.
  intros Hfst Hext.
  destruct (getConfigPath_configDir config os w) as [c w1] eqn:Hdir.
  simpl in Hfst. subst c.
  rewrite (getConfigPath_outcome config os _ _ _ Hdir), Hext.
  rewrite bool_decide_eq_false_2 by discriminate. now rewrite andb_false_r.
Qed.

(** X2.  Without the extension registered under the id the class looks up, the
    promise is rejected exactly when the chain reaches [initializeConfigDir];
    the reason is the message of the final [catch] followed by the
    TypeError, and no copy is started.  When directory and page template
    are accessible it is fulfilled all the same. *)
Theorem getConfigPath_rejects_when_unregistered (w : world D) (dir : string) :
  fst (getConfigPath_configDir config os w) = Return dir ->
  extensions os !! extension_id = None ->
  inflight (snd (getConfigPath config os w)) = inflight w
  /\ (reaches_seeding (disk w) dir = true ->
      fst (getConfigPath config os w)
      = Return (Rejected (VString ("Failed to initialize the configuration: "
                   +:+ "TypeError: Cannot read property 'extensionPath' of undefined"))))
  /\ (reaches_seeding (disk w) dir = false ->
      fst (getConfigPath config os w) = Return (Fulfilled (VString dir))).
Proof.
  intros Hfst Hext.
  destruct (getConfigPath_configDir config os w) as [c w1] eqn:Hdir.
  simpl in Hfst. subst c.
  split.
  - destruct (getConfigPath_effects _ _ _ Hdir) as (d' & copies & evs & Hw & _ & Hc).
    rewrite Hw. simpl. destruct Hc as [-> | (p & Hp & _)]; [apply app_nil_r | congruence].
  - rewrite (getConfigPath_outcome config os _ _ _ Hdir), Hext.
    rewrite bool_decide_eq_true_2 by reflexivity.
    split; intros ->; reflexivity.
Qed.

(** X3.  The only change [getConfigPath] makes to the disk is one [fs.mkdir] of
    the configuration directory, and the only copies it starts are the four
    seed copies from the extension's [res] directory. *)
Theorem getConfigPath_only_mkdir_and_seed (w : world D) (dir : string) :
  fst (getConfigPath_configDir config os w) = Return dir ->
  (disk (snd (getConfigPath config os w)) = disk w
   \/ fs_mkdir (disk w) dir = inr (disk (snd (getConfigPath config os w))))
  /\ (inflight (snd (getConfigPath config os w)) = inflight w
      \/ exists p, extensions os !! extension_id = Some p
                   /\ inflight (snd (getConfigPath config os w))
                      = inflight w ++ seed_copies (Path.resolve (cwd os) [p; "res"]) dir).
Proof.
  intros Hfst.
  destruct (getConfigPath_configDir config os w) as [c w1] eqn:Hdir.
  simpl in Hfst. subst c.
  destruct (getConfigPath_effects _ _ _ Hdir) as (d' & copies & evs & Hw & Hd & Hc).
  rewrite Hw. simpl. split; [exact Hd|].
  destruct Hc as [-> | (p & Hp & ->)]; [left; apply app_nil_r | right; eauto].
Qed.

(** X5.  A non-empty [extDir] decides the directory by itself: it is
    [path.resolve(extDir)], the [base] setting and the home directory are
    not consulted, and a normalised absolute [extDir] is used as it is. *)
Theorem getConfigPath_extDir_takes_precedence (w : world D) (s : string) :
  config !! "extDir" = Some (VString s) -> s <> "" ->
  getConfigPath_configDir config os w
  = (Return (Path.resolve (cwd os) [s]), log (EvConfigGet "extDir") w)
  /\ (forall segs, Forall (fun seg => Path.plain seg = true) segs ->
                   s = Path.absolute_of segs ->
                   fst (getConfigPath_configDir config os w) = Return s).
Proof.
  intros Hs Hne.
  assert (Hrun : getConfigPath_configDir config os w
                 = (Return (Path.resolve (cwd os) [s]), log (EvConfigGet "extDir") w)).
  { js_step. unfold config_lookup. rewrite Hs. simpl.
    apply String.eqb_neq in Hne. rewrite Hne. reflexivity. }
  split; [exact Hrun|].
  intros segs Hsegs ->. rewrite Hrun. simpl. now rewrite PathMore.resolve_self.
Qed.

(** X6.  With [extDir] unset, null or empty and [base] unset, [getConfigPath]
    throws before it returns a promise: reading [length] of undefined in
    [getBasePath]; no file-system call has been made. *)
Theorem getConfigPath_throws_without_base (w : world D) :
  config !! "extDir" = None \/ config !! "extDir" = Some VNull
  \/ config !! "extDir" = Some (VString "") ->
  config !! "base" = None ->
  fst (getConfigPath config os w)
  = Throw (JS.TypeError "Cannot read property 'length' of undefined")
  /\ disk (snd (getConfigPath config os w)) = disk w
  /\ inflight (snd (getConfigPath config os w)) = inflight w
  /\ fs_calls (snd (getConfigPath config os w)) = fs_calls w.
Proof.
  intros Hext Hbase.
  assert (Hv : config_lookup config "extDir" = VUndefined
               \/ config_lookup config "extDir" = VNull
               \/ config_lookup config "extDir" = VString "").
  { unfold config_lookup. destruct Hext as [-> | [-> | ->]]; auto. }
  assert (Hb : config_lookup config "base" = VUndefined)
    by (unfold config_lookup; now rewrite Hbase).
  unfold getConfigPath, fs_calls.
  cbv [getConfigPath_configDir getBasePath config_get bind emit ret lift throw log].
  destruct Hv as [-> | [-> | ->]]; simpl; rewrite Hb; simpl;
    rewrite !List.filter_app; simpl; rewrite !app_nil_r; auto.
Qed.

(** X7.  A stored [base] that is a normalised absolute path is returned as it
    is, and with [extDir] unset or empty the configuration directory is its
    child [.vscode]. *)
Theorem absolute_base_is_kept (w : world D) (segs : list string) :
  Forall (fun seg => Path.plain seg = true) segs ->
  config !! "base" = Some (VString (Path.absolute_of segs)) ->
  fst (getBasePath config os w) = Return (Path.absolute_of segs)
  /\ (config !! "extDir" = None \/ config !! "extDir" = Some (VString "") ->
      fst (getConfigPath_configDir config os w)
      = Return (Path.absolute_of (segs ++ [".vscode"]))).
Proof.
  intros Hsegs Hbase.
  assert (Hb : config_lookup config "base" = VString (Path.absolute_of segs))
    by (unfold config_lookup; now rewrite Hbase).
  assert (Hrun : forall w0 : world D,
             getBasePath config os w0
             = (Return (Path.absolute_of segs), log (EvConfigGet "base") w0)).
  { intros w0. cbv [getBasePath config_get bind emit ret lift throw log]. rewrite Hb.
    simpl. now rewrite PathMore.resolve_self. }
  split; [now rewrite Hrun|].
  intros Hext.
  assert (Hv : config_lookup config "extDir" = VUndefined
               \/ config_lookup config "extDir" = VString "").
  { unfold config_lookup. destruct Hext as [-> | ->]; auto. }
  js_step. fold (log (EvConfigGet "extDir") w).
  destruct Hv as [-> | ->]; simpl; rewrite Hrun; simpl;
    now rewrite PathFacts.resolve_child.
Qed.

(** X8.  A stored [base] that is a relative path of ordinary names is resolved
    against the working directory of the process, not against the home
    directory. *)
Theorem relative_base_is_resolved_against_cwd (w : world D) (csegs rsegs : list string) :
  Forall (fun seg => Path.plain seg = true) csegs ->
  Forall (fun seg => Path.plain seg = true) rsegs -> rsegs <> [] ->
  cwd os = Path.absolute_of csegs ->
  config !! "base" = Some (VString (String.concat "/" rsegs)) ->
  fst (getBasePath config os w) = Return (Path.absolute_of (csegs ++ rsegs)).
Proof.
  intros Hc Hr Hne Hcwd Hbase.
  assert (Hb : config_lookup config "base" = VString (String.concat "/" rsegs))
    by (unfold config_lookup; now rewrite Hbase).
  destruct (PathMore.concat_nonempty rsegs Hr Hne) as [He _].
  cbv [getBasePath config_get bind emit ret lift throw log]. rewrite Hb. simpl.
  rewrite He. simpl. rewrite Hcwd. now rewrite PathMore.resolve_relative.
Qed.

(** X9.  In a process with an absolute working directory, whatever the settings
    hold, the base path and the configuration directory are absolute paths
    whenever they are computed. *)
Theorem paths_are_absolute (w : world D) :
  Path.isAbsolute (cwd os) = true ->
  (forall b, fst (getBasePath config os w) = Return b -> Path.isAbsolute b = true)
  /\ (forall dir, fst (getConfigPath_configDir config os w) = Return dir ->
                  Path.isAbsolute dir = true).
Proof.
  intros Hcwd.
  assert (Hbase : forall (w0 : world D) b,
             fst (getBasePath config os w0) = Return b -> Path.isAbsolute b = true).
  { intros w0 b. cbv [getBasePath config_get bind emit ret lift throw log].
    destruct (config_lookup config "base") as [| |x|n|s|l|t a|n m]; simpl;
      try discriminate;
      try (match goal with |- context [if ?c then _ else _] => destruct c end; simpl);
      try discriminate;
      intros [= <-]; now apply PathMore.resolve_absolute. }
  split; [apply Hbase|].
  intros dir. js_step. fold (log (EvConfigGet "extDir") w).
  pose proof (Hbase (log (EvConfigGet "extDir") w)) as Hb.
  destruct (config_lookup config "extDir") as [| |x|n|s|l|t a|n m]; simpl;
    try (match goal with |- context [if ?c then _ else _] => destruct c end; simpl);
    try discriminate;
    try (intros [= <-]; now apply PathMore.resolve_absolute);
    (destruct (getBasePath config os (log (EvConfigGet "extDir") w)) as [[b|e] w2];
     simpl; try discriminate; intros [= <-]; now apply PathMore.resolve_absolute).
Qed.

(** X10.  For every stored string, [getFileExtension] returns a non-empty string,
    and the result still begins with a dot exactly when the stored value
    begins with two. *)
Theorem getFileExtension_result (w : world D) (s : string) :
  config !! "ext" = Some (VString s) ->
  exists r, fst (getFileExtension config w) = Return (VString r)
            /\ r <> ""
            /\ String.prefix "." r = String.prefix ".." s.
Proof.
  intros Hs.
  assert (Hv : config_lookup config "ext" = VString s)
    by (unfold config_lookup; now rewrite Hs).
  cbv [getFileExtension config_get bind emit ret lift throw log]. rewrite Hv.
  cbn [JS.startsWith_dot].
  destruct s as [|c s]; [exists "md"; repeat split; discriminate|].
  rewrite prefix_dotdot_cons, prefix_dot_cons.
  destruct (Ascii.eqb "." c) eqn:Hc; cbn [substring_from_1 andb].
  - rewrite substring_1_cons.
    destruct s as [|c' s]; [exists "md"; repeat split; discriminate|].
    exists (String c' s). repeat split; discriminate.
  - exists (String c s). split; [reflexivity|]. split; [discriminate|].
    now rewrite prefix_dot_cons.
Qed.

End MoreRuns.

(** ** Reading the templates, on every file system *)

Section Readers.

Context {D : Type} `{FileSystem D} `{FileReader D}.
Variable config : gmap string value.
Variable os : host.

(** The three readers share one shape; [file] is the file they read and
    [msg] the message they reject with. *)
Lemma reader_run (file msg : string) (w w' : world D) (s : settled) :
  getConfigPath config os w = (Return s, w') ->
  deferred_text
    (getConfigPath config os
       .then (fun configPath =>
                let* dir := lift (JSPath.as_path configPath) in
                Q_nfcall_readFile (Path.join [dir; file])))
    msg w
  = (Return
       match s with
       | Fulfilled (VString dir) =>
           match fs_readFile (disk w') (Path.join [dir; file]) with
           | inr text => Fulfilled (VString text)
           | inl err => Rejected (VString (msg +:+ "Error: " +:+ err_message err))
           end
       | Fulfilled _ => Rejected (VString (msg +:+ "TypeError: Path must be a string"))
       | Rejected reason => Rejected (VString (msg +:+ JS.toString reason))
       end, w').
Proof.
  intros Hrun.
  cbv [deferred_text then_ bind ret lift Q_nfcall_readFile]. rewrite Hrun.
  destruct s as [v | reason]; [|reflexivity].
  destruct v; try reflexivity.
  cbn [JSPath.as_path]. destruct (fs_readFile (disk w') _); reflexivity.
Qed.

Lemma reader_throws (file msg : string) (w w' : world D) (e : value) :
  getConfigPath config os w = (Throw e, w') ->
  deferred_text
    (getConfigPath config os
       .then (fun configPath =>
                let* dir := lift (JSPath.as_path configPath) in
                Q_nfcall_readFile (Path.join [dir; file])))
    msg w
  = (Throw e, w').
Proof.
  intros Hrun. cbv [deferred_text then_ bind ret lift Q_nfcall_readFile].
  now rewrite Hrun.
Qed.

(** With directory and page template accessible, a reader gives what
    [fs.readFile] gives for its file. *)
Lemma reader_when_present (file msg : string) (w : world D) (dir : string) :
  fst (getConfigPath_configDir config os w) = Return dir ->
  fs_access (disk w) dir = None ->
  fs_access (disk w) (Path.join [dir; page_template_file]) = None ->
  exists w',
    untouched w w'
    /\ deferred_text
         (getConfigPath config os
            .then (fun configPath =>
                     let* dir := lift (JSPath.as_path configPath) in
                     Q_nfcall_readFile (Path.join [dir; file])))
         msg w
       = (Return
            match fs_readFile (disk w) (Path.join [dir; file]) with
            | inr text => Fulfilled (VString text)
            | inl err => Rejected (VString (msg +:+ "Error: " +:+ err_message err))
            end, w').
Proof.
  intros Hfst Hacc Htpl.
  destruct (getConfigPath_configDir config os w) as [c w1] eqn:Hdir.
  simpl in Hfst. subst c.
  pose proof (getConfigPath_present config os _ _ _ Hdir Hacc Htpl) as Hrun.
  eexists. split; [|rewrite (reader_run file msg _ _ _ Hrun); reflexivity].
  split; reflexivity.
Qed.

(** X11.  When no copy is under way and the configuration directory and its page
    template are accessible, each reader is fulfilled with the text
    [fs.readFile] gives for its own file, and leaves the disk as it was and
    starts no copy. *)
Theorem templates_are_read (w : world D) (dir page note inline : string) :
  inflight w = [] ->
  fst (getConfigPath_configDir config os w) = Return dir ->
  fs_access (disk w) dir = None ->
  fs_access (disk w) (Path.join [dir; page_template_file]) = None ->
  fs_readFile (disk w) (Path.join [dir; "journal.page-template.md"]) = inr page ->
  fs_readFile (disk w) (Path.join [dir; "journal.note-template.md"]) = inr note ->
  fs_readFile (disk w) (Path.join [dir; "journal.inline-templates.json"]) = inr inline ->
  (fst (getPageTemplate config os w) = Return (Fulfilled (VString page))
   /\ untouched w (snd (getPageTemplate config os w)))
  /\ (fst (getNotesPagesTemplate config os w) = Return (Fulfilled (VString note))
      /\ untouched w (snd (getNotesPagesTemplate config os w)))
  /\ (fst (getInlineTemplates config os w) = Return (Fulfilled (VString inline))
      /\ untouched w (snd (getInlineTemplates config os w))).
Proof.
  intros _ Hdir Hacc Htpl Hpage Hnote Hinline.
  unfold getPageTemplate, getNotesPagesTemplate, getInlineTemplates.
  destruct (reader_when_present "journal.page-template.md"
              "Failed to get page template. Reason: " w dir Hdir Hacc Htpl)
    as (w1 & Hu1 & ->).
  destruct (reader_when_present "journal.note-template.md"
              "Failed to get note template. Reason: " w dir Hdir Hacc Htpl)
    as (w2 & Hu2 & ->).
  destruct (reader_when_present "journal.inline-templates.json"
              "Failed to get configuration of inline templates. Reason: " w dir Hdir Hacc Htpl)
    as (w3 & Hu3 & ->).
  rewrite Hpage, Hnote, Hinline. simpl. auto.
Qed.

(** X12.  A note template or an inline-templates file that cannot be read is
    reported and not restored: with no copy under way and the page template
    accessible, the reader is rejected with its own message followed by the
    error, no copy is started and the disk stays as it is. *)
Theorem missing_template_is_not_restored (w : world D) (dir : string) :
  inflight w = [] ->
  fst (getConfigPath_configDir config os w) = Return dir ->
  fs_access (disk w) dir = None ->
  fs_access (disk w) (Path.join [dir; page_template_file]) = None ->
  (forall err,
     fs_readFile (disk w) (Path.join [dir; "journal.note-template.md"]) = inl err ->
     fst (getNotesPagesTemplate config os w)
     = Return (Rejected (VString ("Failed to get note template. Reason: Error: "
                                  +:+ err_message err)))
     /\ untouched w (snd (getNotesPagesTemplate config os w)))
  /\ (forall err,
        fs_readFile (disk w) (Path.join [dir; "journal.inline-templates.json"]) = inl err ->
        fst (getInlineTemplates config os w)
        = Return (Rejected (VString
                    ("Failed to get configuration of inline templates. Reason: Error: "
                     +:+ err_message err)))
        /\ untouched w (snd (getInlineTemplates config os w))).
Proof.
  intros _ Hdir Hacc Htpl.
  unfold getNotesPagesTemplate, getInlineTemplates.
  destruct (reader_when_present "journal.note-template.md"
              "Failed to get note template. Reason: " w dir Hdir Hacc Htpl)
    as (w2 & Hu2 & ->).
  destruct (reader_when_present "journal.inline-templates.json"
              "Failed to get configuration of inline templates. Reason: " w dir Hdir Hacc Htpl)
    as (w3 & Hu3 & ->).
  split; intros err ->; simpl; split; (reflexivity || assumption).
Qed.

(** X13.  When [getConfigPath] throws before returning its promise, so does each
    reader: the caller gets an exception, not a rejected promise. *)
Theorem template_readers_throw (w : world D) (e : value) :
  fst (getConfigPath_configDir config os w) = Throw e ->
  fst (getPageTemplate config os w) = Throw e
  /\ fst (getNotesPagesTemplate config os w) = Throw e
  /\ fst (getInlineTemplates config os w) = Throw e.
Proof.
  intros Hfst.
  assert (Hrun : getConfigPath config os w
                 = (Throw e, snd (getConfigPath_configDir config os w))).
  { unfold getConfigPath, bind at 1.
    destruct (getConfigPath_configDir config os w) as [c w1]. simpl in *. now subst c. }
  unfold getPageTemplate, getNotesPagesTemplate, getInlineTemplates.
  rewrite !(reader_throws _ _ _ _ _ Hrun). auto.
Qed.

End Readers.

(** X14.  When [getConfigPath] is rejected, each reader is rejected with its own
    message followed by that reason, and [fs.readFile] is not consulted:
    the outcome is the same whatever reading the file would give. *)
Theorem template_readers_pass_the_rejection_on
    {D : Type} `{FileSystem D} (reader reader' : FileReader D)
    (config : gmap string value) (os : host) (w : world D) (reason : value) :
  fst (getConfigPath config os w) = Return (Rejected reason) ->
  (fst (@getPageTemplate D _ reader config os w)
   = Return (Rejected (VString ("Failed to get page template. Reason: "
                                +:+ JS.toString reason)))
   /\ fst (@getNotesPagesTemplate D _ reader config os w)
      = Return (Rejected (VString ("Failed to get note template. Reason: "
                                   +:+ JS.toString reason)))
   /\ fst (@getInlineTemplates D _ reader config os w)
      = Return (Rejected (VString
                  ("Failed to get configuration of inline templates. Reason: "
                   +:+ JS.toString reason))))
  /\ @getPageTemplate D _ reader config os w = @getPageTemplate D _ reader' config os w
  /\ @getNotesPagesTemplate D _ reader config os w
     = @getNotesPagesTemplate D _ reader' config os w
  /\ @getInlineTemplates D _ reader config os w = @getInlineTemplates D _ reader' config os w.
Proof.
  intros Hfst.
  destruct (getConfigPath config os w) as [c w'] eqn:Hrun. simpl in Hfst. subst c.
  unfold getPageTemplate, getNotesPagesTemplate, getInlineTemplates.
  rewrite !(@reader_run D _ reader config os _ _ _ _ _ Hrun).
  rewrite !(@reader_run D _ reader' config os _ _ _ _ _ Hrun).
  simpl. auto.
Qed.

(** ** More about the concrete file system *)

Module DiskMore.
Import Path PathFacts DiskFacts.

Lemma pipe_other (d : gmap string node) (src dst k : string) :
  k <> dst -> Disk.pipe d src dst !! k = d !! k.
Proof.
  intros Hk. unfold Disk.pipe.
  destruct (d !! dirname dst) as [[|c]|]; try reflexivity.
  destruct (d !! dst) as [[|c]|]; try reflexivity; now apply lookup_insert_ne.
Qed.

Lemma pipe_keeps (d : gmap string node) (src dst k : string) :
  is_Some (d !! k) -> is_Some (Disk.pipe d src dst !! k).
Proof.
  intros Hk. destruct (decide (k = dst)) as [-> | Hne]; [|now rewrite pipe_other].
  unfold Disk.pipe.
  destruct (d !! dirname dst) as [[|c]|] eqn:Hparent; try assumption.
  destruct (d !! dst) as [[|c]|] eqn:Hdst; rewrite ?lookup_insert_eq, ?Hdst; eauto.
Qed.

Lemma run_copies_cons (src dst : string) (copies : list (string * string))
    (d : gmap string node) :
  run_copies ((src, dst) :: copies) d = run_copies copies (Disk.pipe d src dst).
Proof. reflexivity. Qed.

Lemma run_copies_other (copies : list (string * string)) (d : gmap string node) (k : string) :
  Forall (fun c => k <> snd c) copies -> run_copies copies d !! k = d !! k.
Proof.
  intros Hc. revert d. induction Hc as [|[src dst] copies Hk _ IH]; intros d; [reflexivity|].
  rewrite run_copies_cons, IH. now apply pipe_other.
Qed.

Lemma run_copies_keeps (copies : list (string * string)) (d : gmap string node) (k : string) :
  is_Some (d !! k) -> is_Some (run_copies copies d !! k).
Proof.
  revert d. induction copies as [|[src dst] copies IH]; intros d Hk; [assumption|].
  rewrite run_copies_cons. now apply IH, pipe_keeps.
Qed.

Lemma mkdir_created (d d' : gmap string node) (dir : string) :
  Disk.mkdir d dir = inr d' -> d' = <[dir := Dir]> d.
Proof.
  unfold Disk.mkdir. destruct (d !! dir); [discriminate|].
  destruct (d !! dirname dir) as [[|c]|]; try discriminate. now intros [= <-].
Qed.

Lemma seed_copies_targets (source dir : string) (k : string) :
  (forall f, f ∈ default_files -> k <> Path.join [dir; f]) ->
  Forall (fun c => k <> snd c) (seed_copies source dir).
Proof.
  intros Hk. unfold seed_copies. apply Forall_map, Forall_forall.
  intros f Hf. now apply Hk.
Qed.

Section Frame.

Variable config : gmap string value.
Variable os : host.

(** X4.  Whatever the disk holds and however the call ends, [getConfigPath] and
    the copies it starts leave every path other than the configuration
    directory and its four files as it was, and remove nothing. *)
Theorem getConfigPath_touches_only_its_directory
    (w : world (gmap string node)) (dir : string) :
  fst (getConfigPath_configDir config os w) = Return dir ->
  inflight w = [] ->
  (forall k, k <> dir -> (forall f, f ∈ default_files -> k <> Path.join [dir; f]) ->
             disk (drain (snd (getConfigPath config os w))) !! k = disk w !! k)
  /\ (forall k, is_Some (disk w !! k) ->
                is_Some (disk (drain (snd (getConfigPath config os w))) !! k)).
Proof.
  intros Hfst Hin.
  destruct (getConfigPath_configDir config os w) as [c w1] eqn:Hdir.
  simpl in Hfst. subst c.
  destruct (getConfigPath_effects config os _ _ _ Hdir) as (d' & copies & evs & Hw & Hd & Hc).
  rewrite Hw, Hin. cbn [drain disk inflight app].
  assert (Hd' : d' = disk w \/ d' = <[dir := Dir]> (disk w)).
  { destruct Hd as [-> | Hmk]; [now left | right]. now apply mkdir_created. }
  split.
  - intros k Hk Hfiles. rewrite run_copies_other.
    + destruct Hd' as [-> | ->]; [reflexivity | now apply lookup_insert_ne].
    + destruct Hc as [-> | (p & _ & ->)]; [constructor | now apply seed_copies_targets].
  - intros k Hk. apply run_copies_keeps.
    destruct Hd' as [-> | ->]; [assumption|].
    destruct (decide (k = dir)) as [-> | Hne];
      [rewrite lookup_insert_eq; eauto | now rewrite lookup_insert_ne].
Qed.

End Frame.

Section FirstUse.

Variables (segs src_segs : list string) (content : string -> string).
Hypothesis segs_plain : Forall (fun seg => plain seg = true) segs.
Hypothesis src_segs_plain : Forall (fun seg => plain seg = true) src_segs.

Lemma child_cases (k : string) :
  (exists f, f ∈ default_files /\ k = absolute_of (segs ++ [f]))
  \/ (forall f, f ∈ default_files -> k <> absolute_of (segs ++ [f])).
Proof.
  destruct (decide (Exists (fun f => k = absolute_of (segs ++ [f])) default_files))
    as [Hex | Hno].
  - left. apply Exists_exists in Hex. exact Hex.
  - right. intros f Hf Heq. apply Hno, Exists_exists. eauto.
Qed.

Lemma seeded_child (d : gmap string node) (f : string) :
  f ∈ default_files ->
  seeded segs content d !! absolute_of (segs ++ [f]) = Some (File (content f)).
Proof.
  intros Hf. unfold seeded.
  pose proof default_files_distinct as Hnd. pose proof default_files_plain as Hpl.
  induction default_files as [|g files IH]; [inversion Hf|].
  apply NoDup_cons in Hnd as [Hnotin Hnd]. inversion Hpl as [|? ? Hg Hfiles]; subst.
  cbn [fold_right]. apply elem_of_cons in Hf as [-> | Hf]; [apply lookup_insert_eq|].
  rewrite lookup_insert_ne; [now apply IH|].
  intros Heq. apply child_inj in Heq as [_ ->]; try assumption; [contradiction|].
  now apply (proj1 (Forall_forall _ _) Hfiles).
Qed.

Lemma seeded_other (d : gmap string node) (k : string) :
  (forall f, f ∈ default_files -> k <> absolute_of (segs ++ [f])) ->
  seeded segs content d !! k = <[absolute_of segs := Dir]> d !! k.
Proof.
  unfold seeded. induction default_files as [|g files IH]; intros Hk; [reflexivity|].
  cbn [fold_right]. rewrite lookup_insert_ne.
  - apply IH. intros f Hf. apply Hk. now right.
  - intros Heq. symmetry in Heq. revert Heq. apply Hk. now left.
Qed.

(** The four copies turn a disk that has the directory and a complete
    bundle into the seeded disk. *)
Lemma run_to_seeded (d : gmap string node) :
  segs <> src_segs ->
  d !! absolute_of segs = Some Dir ->
  (forall f, f ∈ default_files ->
     d !! absolute_of (src_segs ++ [f]) = Some (File (content f))) ->
  (forall f, f ∈ default_files -> d !! absolute_of (segs ++ [f]) <> Some Dir) ->
  run_copies (seed_copies (absolute_of src_segs) (absolute_of segs)) d
  = seeded segs content d.
Proof.
  intros Hdiff Hdir Hsrc Hdst.
  destruct (seeding_completes segs src_segs content segs_plain src_segs_plain Hdiff d
              Hdir Hsrc Hdst) as [Hfiles Hrest].
  apply map_eq. intros k.
  destruct (child_cases k) as [(f & Hf & ->) | Hk].
  - now rewrite Hfiles, seeded_child.
  - rewrite Hrest, seeded_other by assumption.
    destruct (decide (k = absolute_of segs)) as [-> | Hne];
      [now rewrite lookup_insert_eq | now rewrite lookup_insert_ne].
Qed.

Lemma seeded_insert_dir (d : gmap string node) :
  seeded segs content (<[absolute_of segs := Dir]> d) = seeded segs content d.
Proof. unfold seeded. now rewrite insert_insert_eq. Qed.

Variable config : gmap string value.
Variable os : host.
Variable p : string.
Hypothesis extension_installed : extensions os !! extension_id = Some p.
Hypothesis bundle_at : Path.resolve (cwd os) [p; "res"] = absolute_of src_segs.

Lemma first_use_world (w : world (gmap string node)) :
  fst (getConfigPath_configDir config os w) = Return (absolute_of segs) ->
  inflight w = [] ->
  disk w !! absolute_of segs = None ->
  disk w !! Path.dirname (absolute_of segs) = Some Dir ->
  (forall f, f ∈ default_files -> disk w !! absolute_of (segs ++ [f]) = None) ->
  (forall f, f ∈ default_files ->
     disk w !! absolute_of (src_segs ++ [f]) = Some (File (content f))) ->
  fst (getConfigPath config os w) = Return (Fulfilled (VString (absolute_of segs)))
  /\ disk (drain (snd (getConfigPath config os w))) = seeded segs content (disk w)
  /\ inflight (drain (snd (getConfigPath config os w))) = [].
Proof.
  intros Hfst Hin Hdir Hparent Hnone Hsrc.
  destruct (getConfigPath_configDir config os w) as [c w1] eqn:Hrun.
  simpl in Hfst. subst c.
  set (d' := <[absolute_of segs := Dir]> (disk w)).
  assert (Hpage : page_template_file ∈ default_files)
    by (unfold page_template_file, default_files; rewrite !elem_of_cons; auto).
  assert (Hdiff : segs <> src_segs).
  { intros ->. specialize (Hsrc _ Hpage). rewrite (Hnone _ Hpage) in Hsrc. discriminate. }
  assert (Hplain : forall f, f ∈ default_files -> plain f = true)
    by apply (proj1 (Forall_forall _ _) default_files_plain).
  assert (Hdst : forall f, f ∈ default_files -> d' !! absolute_of (segs ++ [f]) = None).
  { intros f Hf. unfold d'. rewrite lookup_insert_ne; [now apply Hnone|].
    intros Heq. symmetry in Heq. apply child_not_parent in Heq; auto. }
  assert (Hsrc' : forall f, f ∈ default_files ->
                    d' !! absolute_of (src_segs ++ [f]) = Some (File (content f))).
  { intros f Hf. unfold d'. rewrite lookup_insert_ne; [now apply Hsrc|].
    intros Heq. specialize (Hsrc f Hf). rewrite <- Heq in Hsrc. congruence. }
  rewrite (getConfigPath_created config os w w1 (absolute_of segs) p
             (Disk.ENOENT "access" (absolute_of segs))
             (Disk.ENOENT "access" (Path.join [absolute_of segs; page_template_file]))
             d' Hrun).
  - split; [reflexivity|]. split; [|reflexivity].
    cbn [snd drain disk inflight]. rewrite Hin, bundle_at. cbn [app].
    rewrite run_to_seeded; try assumption.
    + apply seeded_insert_dir.
    + apply lookup_insert_eq.
    + intros f Hf. rewrite Hdst by assumption. discriminate.
  - cbn [fs_access Disk.disk_fs]. unfold Disk.access. now rewrite Hdir.
  - cbn [fs_mkdir Disk.disk_fs]. unfold Disk.mkdir. now rewrite Hdir, Hparent.
  - cbn [fs_access Disk.disk_fs]. unfold Disk.access.
    rewrite join_child by (assumption || reflexivity). now rewrite Hdst.
  - assumption.
Qed.

(** X15.  First use.  The configuration directory is not there, its parent is and
    the bundle is complete: the call is fulfilled with the directory's
    path, and once its copies have run the disk is the old one with the
    directory and its four files, holding the bundle's content, added;
    nothing else has changed. *)
Theorem first_use_seeds_the_directory (w : world (gmap string node)) :
  fst (getConfigPath_configDir config os w) = Return (absolute_of segs) ->
  inflight w = [] ->
  disk w !! absolute_of segs = None ->
  disk w !! Path.dirname (absolute_of segs) = Some Dir ->
  (forall f, f ∈ default_files -> disk w !! absolute_of (segs ++ [f]) = None) ->
  (forall f, f ∈ default_files ->
     disk w !! absolute_of (src_segs ++ [f]) = Some (File (content f))) ->
  fst (getConfigPath config os w) = Return (Fulfilled (VString (absolute_of segs)))
  /\ disk (drain (snd (getConfigPath config os w))) = seeded segs content (disk w).
Proof.
  intros Hfst Hin Hdir Hparent Hnone Hsrc.
  destruct (first_use_world w Hfst Hin Hdir Hparent Hnone Hsrc) as (Hres & Hdisk & _).
  now split.
Qed.

(** X17.  After a first use and its copies, the three readers are fulfilled with
    the content of the bundled page template, note template and inline
    templates. *)
Theorem templates_readable_after_first_use (w : world (gmap string node)) :
  fst (getConfigPath_configDir config os w) = Return (absolute_of segs) ->
  inflight w = [] ->
  disk w !! absolute_of segs = None ->
  disk w !! Path.dirname (absolute_of segs) = Some Dir ->
  (forall f, f ∈ default_files -> disk w !! absolute_of (segs ++ [f]) = None) ->
  (forall f, f ∈ default_files ->
     disk w !! absolute_of (src_segs ++ [f]) = Some (File (content f))) ->
  fst (getPageTemplate config os (drain (snd (getConfigPath config os w))))
  = Return (Fulfilled (VString (content "journal.page-template.md")))
  /\ fst (getNotesPagesTemplate config os (drain (snd (getConfigPath config os w))))
     = Return (Fulfilled (VString (content "journal.note-template.md")))
  /\ fst (getInlineTemplates config os (drain (snd (getConfigPath config os w))))
     = Return (Fulfilled (VString (content "journal.inline-templates.json"))).
Proof.
  intros Hfst Hin Hdir Hparent Hnone Hsrc.
  destruct (first_use_world w Hfst Hin Hdir Hparent Hnone Hsrc) as (_ & Hdisk & _).
  set (w2 := drain (snd (getConfigPath config os w))) in *.
  assert (Hfst2 : fst (getConfigPath_configDir config os w2) = Return (absolute_of segs))
    by now rewrite (getConfigPath_configDir_indep config os w2 w).
  assert (Hchild : forall f, f ∈ default_files ->
             disk w2 !! Path.join [absolute_of segs; f] = Some (File (content f))).
  { intros f Hf. rewrite join_child, Hdisk; [now apply seeded_child | assumption|].
    now apply (proj1 (Forall_forall _ _) default_files_plain). }
  assert (Hacc : fs_access (disk w2) (absolute_of segs) = None).
  { cbn [fs_access Disk.disk_fs]. unfold Disk.access. rewrite Hdisk, seeded_other.
    - now rewrite lookup_insert_eq.
    - intros f Hf Heq. symmetry in Heq. apply child_not_parent in Heq; auto.
      now apply (proj1 (Forall_forall _ _) default_files_plain). }
  assert (Hin' : forall f, In f default_files -> f ∈ default_files)
    by (intros f; apply list_elem_of_In).
  assert (Htpl : fs_access (disk w2) (Path.join [absolute_of segs; page_template_file]) = None).
  { cbn [fs_access Disk.disk_fs]. unfold Disk.access. rewrite Hchild; [reflexivity|].
    apply Hin'. simpl. auto. }
  unfold getPageTemplate, getNotesPagesTemplate, getInlineTemplates.
  destruct (reader_when_present config os "journal.page-template.md"
              "Failed to get page template. Reason: " w2 _ Hfst2 Hacc Htpl)
    as (w3 & _ & ->).
  destruct (reader_when_present config os "journal.note-template.md"
              "Failed to get note template. Reason: " w2 _ Hfst2 Hacc Htpl)
    as (w4 & _ & ->).
  destruct (reader_when_present config os "journal.inline-templates.json"
              "Failed to get configuration of inline templates. Reason: " w2 _ Hfst2 Hacc Htpl)
    as (w5 & _ & ->).
  cbn [fst fs_readFile DiskRead.disk_reader]. unfold DiskRead.readFile.
  rewrite !Hchild by (apply Hin'; simpl; auto). auto.
Qed.

(** X16.  Repair.  No copy is under way, the directory is there without its
    page template, none of the four file paths in it is a directory and
    the bundle is complete: once the copies of the call have run, all four
    files hold the bundle's content, whether the other three were absent or
    were files of whatever content, and every other path is as it was. *)
Theorem reseeding_overwrites_the_four_files (w : world (gmap string node)) :
  fst (getConfigPath_configDir config os w) = Return (absolute_of segs) ->
  inflight w = [] ->
  disk w !! absolute_of segs = Some Dir ->
  disk w !! absolute_of (segs ++ [page_template_file]) = None ->
  (forall f, f ∈ default_files -> disk w !! absolute_of (segs ++ [f]) <> Some Dir) ->
  (forall f, f ∈ default_files ->
     disk w !! absolute_of (src_segs ++ [f]) = Some (File (content f))) ->
  fst (getConfigPath config os w) = Return (Fulfilled (VString (absolute_of segs)))
  /\ disk (drain (snd (getConfigPath config os w))) = seeded segs content (disk w).
Proof.
  intros Hfst Hin Hdir Htpl Hdst Hsrc.
  destruct (getConfigPath_configDir config os w) as [c w1] eqn:Hrun.
  simpl in Hfst. subst c.
  assert (Hpage : page_template_file ∈ default_files)
    by (unfold page_template_file, default_files; rewrite !elem_of_cons; auto).
  assert (Hdiff : segs <> src_segs).
  { intros ->. specialize (Hsrc _ Hpage). rewrite Htpl in Hsrc. discriminate. }
  rewrite (getConfigPath_reseed config os w w1 (absolute_of segs) p
             (Disk.ENOENT "access" (Path.join [absolute_of segs; page_template_file])) Hrun).
  - split; [reflexivity|]. cbn [snd drain disk inflight]. rewrite Hin, bundle_at. cbn [app].
    rewrite run_to_seeded by assumption.
    rewrite <- seeded_insert_dir. now rewrite (insert_id _ _ _ Hdir).
  - cbn [fs_access Disk.disk_fs]. unfold Disk.access. now rewrite Hdir.
  - cbn [fs_access Disk.disk_fs]. unfold Disk.access.
    rewrite join_child by (assumption || reflexivity). now rewrite Htpl.
  - assumption.
Qed.

End FirstUse.

End DiskMore.

(** ** The further properties on the sample installations *)

Module MoreOnDisk.
Import Scenario Scenario2.

Lemma default_files_cases (P : string -> Prop) :
  P "settings.json" -> P "journal.page-template.md" ->
  P "journal.note-template.md" -> P "journal.inline-templates.json" ->
  forall f, f ∈ default_files -> P f.
Proof.
  intros H1 H2 H3 H4 f Hf. unfold default_files in Hf.
  rewrite !elem_of_cons, elem_of_nil in Hf.
  destruct Hf as [-> | [-> | [-> | [-> | []]]]]; assumption.
Qed.

Lemma getConfigPath_never_rejects_witness :
  fst (getConfigPath settings os (start fresh)) = Return (Fulfilled (VString config_dir))
  /\ fst (getConfigPath settings os (start bundle_incomplete))
     = Return (Fulfilled (VString config_dir)).
Proof.
  split.
  - apply (getConfigPath_never_rejects_when_registered settings os (start fresh)
             config_dir "/ext"); vm_compute; reflexivity.
  - apply (getConfigPath_never_rejects_when_registered settings os (start bundle_incomplete)
             config_dir "/ext"); vm_compute; reflexivity.
Defined.

Lemma getConfigPath_rejects_when_unregistered_witness :
  (inflight (snd (getConfigPath settings os_unregistered (start with_journal))) = []
   /\ fst (getConfigPath settings os_unregistered (start with_journal))
      = Return (Rejected (VString ("Failed to initialize the configuration: "
                   +:+ "TypeError: Cannot read property 'extensionPath' of undefined"))))
  /\ fst (getConfigPath settings os_unregistered after_first_call)
     = Return (Fulfilled (VString config_dir)).
Proof.
  split.
  - destruct (getConfigPath_rejects_when_unregistered settings os_unregistered
                (start with_journal) config_dir) as (Hin & Hrej & _);
      [vm_compute; reflexivity | reflexivity |].
    split; [exact Hin | apply Hrej; vm_compute; reflexivity].
  - destruct (getConfigPath_rejects_when_unregistered settings os_unregistered
                after_first_call config_dir) as (_ & _ & Hok);
      [vm_compute; reflexivity | reflexivity |].
    apply Hok. vm_compute. reflexivity.
Defined.

Lemma getConfigPath_only_mkdir_and_seed_witness :
  (disk (snd (getConfigPath settings os (start with_journal))) = disk (start with_journal)
   \/ fs_mkdir (disk (start with_journal)) config_dir
      = inr (disk (snd (getConfigPath settings os (start with_journal)))))
  /\ (inflight (snd (getConfigPath settings os (start with_journal)))
      = inflight (start with_journal)
      \/ exists p, extensions os !! extension_id = Some p
                   /\ inflight (snd (getConfigPath settings os (start with_journal)))
                      = inflight (start with_journal)
                        ++ seed_copies (Path.resolve (cwd os) [p; "res"]) config_dir).
Proof.
  apply (getConfigPath_only_mkdir_and_seed settings os (start with_journal) config_dir).
  vm_compute. reflexivity.
Defined.

Lemma getConfigPath_touches_only_its_directory_witness :
  (forall k, k <> config_dir ->
             (forall f, f ∈ default_files -> k <> Path.join [config_dir; f]) ->
             disk (drain (snd (getConfigPath settings os (start page_template_deleted)))) !! k
             = disk (start page_template_deleted) !! k)
  /\ (forall k, is_Some (disk (start page_template_deleted) !! k) ->
                is_Some (disk (drain (snd (getConfigPath settings os
                                             (start page_template_deleted)))) !! k)).
Proof.
  apply (DiskMore.getConfigPath_touches_only_its_directory settings os
           (start page_template_deleted) config_dir).
  - vm_compute. reflexivity.
  - reflexivity.
Defined.

Lemma getConfigPath_extDir_witness :
  getConfigPath_configDir settings_extDir os (start fresh)
  = (Return (Path.resolve (cwd os) ["/data/journal-config"]),
     log (EvConfigGet "extDir") (start fresh))
  /\ fst (getConfigPath_configDir settings_extDir os (start fresh))
     = Return "/data/journal-config".
Proof.
  destruct (getConfigPath_extDir_takes_precedence settings_extDir os (start fresh)
              "/data/journal-config") as (Hrun & Hself);
    [apply lookup_singleton_eq | discriminate |].
  split; [exact Hrun|].
  apply (Hself ["data"; "journal-config"]); [repeat constructor | reflexivity].
Defined.

Lemma getConfigPath_throws_without_base_witness :
  fst (getConfigPath ∅ os (start fresh))
  = Throw (JS.TypeError "Cannot read property 'length' of undefined")
  /\ disk (snd (getConfigPath ∅ os (start fresh))) = disk (start fresh)
  /\ inflight (snd (getConfigPath ∅ os (start fresh))) = inflight (start fresh)
  /\ fs_calls (snd (getConfigPath ∅ os (start fresh))) = fs_calls (start fresh).
Proof.
  apply (getConfigPath_throws_without_base ∅ os (start fresh)).
  - left. apply lookup_empty.
  - apply lookup_empty.
Defined.

Lemma absolute_base_is_kept_witness :
  fst (getBasePath settings_absolute os (start fresh)) = Return "/data/journal"
  /\ fst (getConfigPath_configDir settings_absolute os (start fresh))
     = Return "/data/journal/.vscode".
Proof.
  destruct (absolute_base_is_kept settings_absolute os (start fresh) ["data"; "journal"])
    as (Hbase & Hdir); [repeat constructor | apply lookup_singleton_eq |].
  split; [exact Hbase|]. apply Hdir. left. vm_compute. reflexivity.
Defined.

Lemma relative_base_witness :
  fst (getBasePath settings_relative os (start fresh)) = Return "/work/notes/journal".
Proof.
  apply (relative_base_is_resolved_against_cwd settings_relative os (start fresh)
           ["work"] ["notes"; "journal"]).
  - repeat constructor.
  - repeat constructor.
  - discriminate.
  - reflexivity.
  - apply lookup_singleton_eq.
Defined.

Lemma paths_are_absolute_witness :
  Path.isAbsolute "/work/notes/journal" = true
  /\ Path.isAbsolute "/work/notes/journal/.vscode" = true.
Proof.
  destruct (paths_are_absolute settings_relative os (start fresh) eq_refl) as (Hbase & Hdir).
  split; [apply Hbase | apply Hdir]; vm_compute; reflexivity.
Defined.

Lemma getFileExtension_result_witness :
  exists r, fst (getFileExtension {[ "ext" := VString "..md" ]} (start fresh))
            = Return (VString r)
            /\ r <> ""
            /\ String.prefix "." r = String.prefix ".." "..md".
Proof.
  apply (getFileExtension_result {[ "ext" := VString "..md" ]} (start fresh) "..md").
  apply lookup_singleton_eq.
Defined.

Lemma templates_are_read_witness :
  (fst (getPageTemplate settings os after_first_call)
   = Return (Fulfilled (VString "# ${date}"))
   /\ untouched after_first_call (snd (getPageTemplate settings os after_first_call)))
  /\ (fst (getNotesPagesTemplate settings os after_first_call)
      = Return (Fulfilled (VString "# ${input}"))
      /\ untouched after_first_call (snd (getNotesPagesTemplate settings os after_first_call)))
  /\ (fst (getInlineTemplates settings os after_first_call)
      = Return (Fulfilled (VString "[]"))
      /\ untouched after_first_call (snd (getInlineTemplates settings os after_first_call))).
Proof.
  apply (templates_are_read settings os after_first_call config_dir);
    vm_compute; reflexivity.
Defined.

Lemma missing_template_witness :
  fst (getNotesPagesTemplate settings os (start page_template_only))
  = Return (Rejected (VString ("Failed to get note template. Reason: Error: "
      +:+ err_message (Disk.ENOENT "open" "/home/u/Journal/.vscode/journal.note-template.md"))))
  /\ untouched (start page_template_only)
               (snd (getNotesPagesTemplate settings os (start page_template_only))).
Proof.
  destruct (missing_template_is_not_restored settings os (start page_template_only)
              config_dir) as (Hnote & _); try (vm_compute; reflexivity).
  apply Hnote. vm_compute. reflexivity.
Defined.

Lemma template_readers_throw_witness :
  fst (getPageTemplate ∅ os (start fresh))
  = Throw (JS.TypeError "Cannot read property 'length' of undefined")
  /\ fst (getNotesPagesTemplate ∅ os (start fresh))
     = Throw (JS.TypeError "Cannot read property 'length' of undefined")
  /\ fst (getInlineTemplates ∅ os (start fresh))
     = Throw (JS.TypeError "Cannot read property 'length' of undefined").
Proof.
  apply (template_readers_throw ∅ os (start fresh)). vm_compute. reflexivity.
Defined.

Lemma template_readers_rejection_witness :
  fst (getPageTemplate settings os_unregistered (start with_journal))
  = Return (Rejected (VString
      ("Failed to get page template. Reason: "
       +:+ "Failed to initialize the configuration: "
       +:+ "TypeError: Cannot read property 'extensionPath' of undefined")))
  /\ @getPageTemplate _ _ DiskRead.disk_reader settings os_unregistered (start with_journal)
     = @getPageTemplate _ _ failing_reader settings os_unregistered (start with_journal).
Proof.
  destruct (template_readers_pass_the_rejection_on DiskRead.disk_reader failing_reader
              settings os_unregistered (start with_journal)
              (VString ("Failed to initialize the configuration: "
                 +:+ "TypeError: Cannot read property 'extensionPath' of undefined")))
    as ((Hpage & _ & _) & Hsame & _ & _); [vm_compute; reflexivity|].
  split; [exact Hpage | exact Hsame].
Defined.

Lemma first_use_witness :
  fst (getConfigPath settings os (start with_journal)) = Return (Fulfilled (VString config_dir))
  /\ disk after_first_call
     = seeded ["home"; "u"; "Journal"; ".vscode"] bundled (disk (start with_journal)).
Proof.
  apply (DiskMore.first_use_seeds_the_directory
           ["home"; "u"; "Journal"; ".vscode"] ["ext"; "res"] bundled
           ltac:(repeat constructor) ltac:(repeat constructor)
           settings os "/ext" eq_refl eq_refl (start with_journal)).
  - vm_compute; reflexivity.
  - reflexivity.
  - vm_compute; reflexivity.
  - vm_compute; reflexivity.
  - apply default_files_cases; vm_compute; reflexivity.
  - apply default_files_cases; vm_compute; reflexivity.
Defined.

Lemma reseeding_witness :
  fst (getConfigPath settings os (start page_template_deleted))
  = Return (Fulfilled (VString config_dir))
  /\ disk (drain (snd (getConfigPath settings os (start page_template_deleted))))
     = seeded ["home"; "u"; "Journal"; ".vscode"] bundled (disk (start page_template_deleted)).
Proof.
  apply (DiskMore.reseeding_overwrites_the_four_files
           ["home"; "u"; "Journal"; ".vscode"] ["ext"; "res"] bundled
           ltac:(repeat constructor) ltac:(repeat constructor)
           settings os "/ext" eq_refl eq_refl (start page_template_deleted)).
  - vm_compute; reflexivity.
  - reflexivity.
  - vm_compute; reflexivity.
  - vm_compute; reflexivity.
  - apply default_files_cases; vm_compute; discriminate.
  - apply default_files_cases; vm_compute; reflexivity.
Defined.

Lemma templates_after_first_use_witness :
  fst (getPageTemplate settings os after_first_call)
  = Return (Fulfilled (VString (bundled "journal.page-template.md")))
  /\ fst (getNotesPagesTemplate settings os after_first_call)
     = Return (Fulfilled (VString (bundled "journal.note-template.md")))
  /\ fst (getInlineTemplates settings os after_first_call)
     = Return (Fulfilled (VString (bundled "journal.inline-templates.json"))).
Proof.
  apply (DiskMore.templates_readable_after_first_use
           ["home"; "u"; "Journal"; ".vscode"] ["ext"; "res"] bundled
           ltac:(repeat constructor) ltac:(repeat constructor)
           settings os "/ext" eq_refl eq_refl (start with_journal)).
  - vm_compute; reflexivity.
  - reflexivity.
  - vm_compute; reflexivity.
  - vm_compute; reflexivity.
  - apply default_files_cases; vm_compute; reflexivity.
  - apply default_files_cases; vm_compute; reflexivity.
Defined.

End MoreOnDisk.

(** ** Re-seeding, on the concrete file system *)

Module PathNormal.
Import Path PathFacts.





End PathNormal.



Module ReseedOnDisk.
Import Scenario Scenario2.



End ReseedOnDisk.
